(** * Shallow embedding of the idilia source plugin (Janus gateway plugin)

    The port pool ([idilia_source_common.h], [ports_pool.h]), the socket
    factory ([socket_utils] in [sdp_utils.h]), the SDP utilities
    ([socket_utils.h]: regex search + sscanf + printf on strings) and the
    session controller entry points of [idilia_source.c] that the
    properties below talk about. *)

From Stdlib Require Import ZArith Lia Bool List String Ascii.
From Stdlib Require Import Numbers.DecimalString.
Import ListNotations.
Open Scope Z_scope.

(* ------------------------------------------------------------------ *)
(** ** Port pool ([ports_pool.h], [idilia_source_common.h]) *)

(** [typedef gint64 port_t; struct ports_pool { port_t min, max; GList* list;
    gint count; }].  The GList holds the allocated ports (as
    GINT_TO_POINTER), [count] is a separate counter.  [count] is a signed
    [gint]; it stays far from the 32-bit bounds in every input used here. *)
Record ports_pool := mk_pool {
  pp_min : Z;
  pp_max : Z;
  pp_list : list Z;
  pp_count : Z
}.

(** [g_list_find l p != NULL] *)
Definition g_list_find (l : list Z) (p : Z) : bool :=
  existsb (Z.eqb p) l.

(** [g_list_append l p] *)
Definition g_list_append (l : list Z) (p : Z) : list Z := l ++ [p].

(** [g_list_remove l p]: removes the first element equal to [p], if any. *)
Fixpoint g_list_remove (l : list Z) (p : Z) : list Z :=
  match l with
  | [] => []
  | x :: l' => if Z.eqb x p then l' else x :: g_list_remove l' p
  end.

(** [g_random_int_range(begin, end)] is the oracle [rnd]: its [i]-th draw is
    [rnd i] (GLib guarantees [begin <= rnd i < end]).  The
    [do { port = g_random_int_range(min, max); } while (g_list_find(...))]
    loop, with [fuel] bounding the number of draws: [None] means the loop
    has not ended within [fuel] draws. *)
Fixpoint random_free_port (rnd : nat -> Z) (l : list Z) (i : nat) (fuel : nat)
  : option (Z * nat) :=
  match fuel with
  | O => None
  | S f =>
      let p := rnd i in
      if g_list_find l p then random_free_port rnd l (S i) f else Some (p, S i)
  end.

(** [gint ports_pool_get(ports_pool * pp, port_t port)]; [i] is the index of
    the next random draw, returned updated. *)
Definition ports_pool_get (fuel : nat) (rnd : nat -> Z) (i : nat)
    (pp : ports_pool) (port : Z) : option (ports_pool * Z * nat) :=
  if pp_max pp - pp_min pp <=? pp_count pp then
    (* no free ports *)
    Some (pp, 0, i)
  else
    let chosen :=
      if (pp_min pp <=? port) && (port <=? pp_max pp) then
        Some (if g_list_find (pp_list pp) port then 0 else port, i)
      else random_free_port rnd (pp_list pp) i fuel in
    match chosen with
    | None => None
    | Some (p, i') =>
        if 0 <? p then
          Some (mk_pool (pp_min pp) (pp_max pp)
                  (g_list_append (pp_list pp) p) (pp_count pp + 1), p, i')
        else Some (pp, p, i')
    end.

(** [void ports_pool_return(ports_pool * pp, port_t port)] *)
Definition ports_pool_return (pp : ports_pool) (port : Z) : ports_pool :=
  mk_pool (pp_min pp) (pp_max pp) (g_list_remove (pp_list pp) port)
    (pp_count pp - 1).

(* ------------------------------------------------------------------ *)
(** ** Socket factory ([socket_utils_*] in [sdp_utils.h]) *)

(** [janus_source_socket { int port; GSocket *socket; gboolean is_client;
    GSource *source; }]; the handles are reduced to "non-NULL" flags. *)
Record janus_source_socket := mk_sock {
  sck_port : Z;
  sck_socket : bool;
  sck_is_client : bool;
  sck_source : bool
}.

(** The environment of the socket factory: the process-wide pool [pp], the
    index of the next random draw and the index of the next bind/connect
    attempt.  The oracle [bind_ok k] is the outcome of the [k]-th
    [g_socket_bind]/[g_socket_connect] call. *)
Record sock_env := mk_env {
  env_pool : ports_pool;
  env_draw : nat;
  env_attempt : nat
}.

(** [void socket_utils_close_socket(janus_source_socket * sck)] *)
Definition socket_utils_close_socket (e : sock_env) (sck : janus_source_socket)
  : sock_env * janus_source_socket :=
  let sck1 := mk_sock (sck_port sck) false (sck_is_client sck) false in
  (mk_env (ports_pool_return (env_pool e) (sck_port sck)) (env_draw e)
     (env_attempt e), sck1).

(** The [do { ... } while (!result);] loop of [socket_utils_create_socket].
    [result] is the value of the C variable when the iteration starts (it is
    initialised to TRUE before the loop).  Returns the values of [result] and
    [port] after the loop, or [None] when the loop has not ended within
    [fuel] iterations. *)
Fixpoint create_loop (fuel : nat) (rnd : nat -> Z) (bind_ok : nat -> bool)
    (req_port : Z) (result : bool) (e : sock_env) : option (bool * Z * sock_env) :=
  match fuel with
  | O => None
  | S f =>
      let got :=
        if Z.eqb req_port 0 then
          match ports_pool_get fuel rnd (env_draw e) (env_pool e) 0 with
          | None => None
          | Some (pp', p, d') => Some (p, mk_env pp' d' (env_attempt e))
          end
        else Some (req_port, e) in
      match got with
      | None => None
      | Some (port, e1) =>
          if Z.eqb port 0 then
            (* "No free ports available in ports pool": break *)
            Some (result, port, e1)
          else
            (* g_inet_socket_address_new_from_string("127.0.0.1", port) *)
            let r := bind_ok (env_attempt e1) in
            let e2 := mk_env (env_pool e1) (env_draw e1) (S (env_attempt e1)) in
            if r then Some (true, port, e2)
            else
              let e3 := mk_env (ports_pool_return (env_pool e2) port)
                          (env_draw e2) (env_attempt e2) in
              create_loop f rnd bind_ok req_port false e3
      end
  end.

(** Outcome of [socket_utils_create_socket]: the returned gboolean, or the
    abort raised by [g_assert(port)]. *)
Inductive create_outcome :=
| Returned (b : bool)
| AssertFailed.

(** [static gboolean socket_utils_create_socket(janus_source_socket * sck,
    gboolean is_client, int req_port)]; [socket_ok] is whether
    [g_socket_new] returned a socket. *)
Definition socket_utils_create_socket (fuel : nat) (rnd : nat -> Z)
    (bind_ok : nat -> bool) (socket_ok : bool) (e : sock_env)
    (sck : janus_source_socket) (is_client : bool) (req_port : Z)
  : option (create_outcome * janus_source_socket * sock_env) :=
  let sck0 := mk_sock (sck_port sck) socket_ok (sck_is_client sck) false in
  if negb socket_ok then Some (Returned false, sck0, e)
  else
    match create_loop fuel rnd bind_ok req_port true e with
    | None => None
    | Some (result, port, e') =>
        let sck1 := mk_sock (sck_port sck0) true
                      (* [sck->is_client = is_client] ran unless the first
                         iteration already broke out *)
                      (if result && Z.eqb port 0 then sck_is_client sck0 else is_client)
                      false in
        if negb result then
          let '(e'', sck2) := socket_utils_close_socket e' sck1 in
          Some (Returned false, sck2, e'')
        else if Z.eqb port 0 then Some (AssertFailed, sck1, e')
        else Some (Returned true, mk_sock port true is_client false, e')
    end.

(** [socket_utils_create_server_socket(sck)] *)
Definition socket_utils_create_server_socket fuel rnd bind_ok socket_ok e sck :=
  socket_utils_create_socket fuel rnd bind_ok socket_ok e sck false 0.

(** [socket_utils_create_client_socket(sck, port_to_connect)] *)
Definition socket_utils_create_client_socket fuel rnd bind_ok socket_ok e sck
    port_to_connect :=
  socket_utils_create_socket fuel rnd bind_ok socket_ok e sck true
    port_to_connect.

(* ------------------------------------------------------------------ *)
(** ** Strings, the regular expressions and [sscanf] used by the SDP code *)

Local Open Scope string_scope.

Definition ascii_eqb (a b : ascii) : bool :=
  if ascii_dec a b then true else false.

Definition tab : ascii := Ascii.ascii_of_nat 9.
Definition nl : ascii := Ascii.ascii_of_nat 10.
Definition cr : ascii := Ascii.ascii_of_nat 13.

(** [[0-9]] *)
Definition is_digit (c : ascii) : bool :=
  let n := Ascii.nat_of_ascii c in (Nat.leb 48 n && Nat.leb n 57)%bool.

(** [[ \t]] *)
Definition is_blank (c : ascii) : bool :=
  (ascii_eqb c " " || ascii_eqb c tab)%bool.

(** [[a-zA-Z0-9]] *)
Definition is_alnum (c : ascii) : bool :=
  let n := Ascii.nat_of_ascii c in
  (is_digit c || (Nat.leb 65 n && Nat.leb n 90) || (Nat.leb 97 n && Nat.leb n 122))%bool.

(** C [isspace] in the "C" locale *)
Definition is_space (c : ascii) : bool :=
  let n := Ascii.nat_of_ascii c in (Nat.eqb n 32 || (Nat.leb 9 n && Nat.leb n 13))%bool.

Fixpoint str_drop (n : nat) (s : string) : string :=
  match n, s with
  | O, _ => s
  | S _, EmptyString => EmptyString
  | S n', String _ s' => str_drop n' s'
  end.

Fixpoint str_take (n : nat) (s : string) : string :=
  match n, s with
  | O, _ => EmptyString
  | S _, EmptyString => EmptyString
  | S n', String c s' => String c (str_take n' s')
  end.

(** Length of the longest prefix of [s] whose characters are in [cls]. *)
Fixpoint run_len (cls : ascii -> bool) (s : string) : nat :=
  match s with
  | EmptyString => O
  | String c s' => if cls c then S (run_len cls s') else O
  end.

(** The regular expressions of [socket_utils.h] are sequences of literal
    characters and one-or-more repetitions of a character class. *)
Inductive rtok :=
| RChar (c : ascii)
| RPlus (cls : ascii -> bool).

Fixpoint rlit (s : string) : list rtok :=
  match s with
  | EmptyString => []
  | String c s' => RChar c :: rlit s'
  end.

(** A [+] of a character class takes the longest run first and gives the
    characters back one by one: [try_len rest s k] tries the lengths
    [k, k-1, ..., 1], [rest] matching the remainder of the pattern. *)
Fixpoint try_len (rest : string -> option nat) (s : string) (k : nat) : option nat :=
  match k with
  | O => None
  | S k' =>
      match rest (str_drop (S k') s) with
      | Some n => Some (S k' + n)%nat
      | None => try_len rest s k'
      end
  end.

(** Anchored match with PCRE's backtracking semantics.  Returns the length of
    the match. *)
Fixpoint re_match (ts : list rtok) (s : string) : option nat :=
  match ts with
  | [] => Some O
  | RChar c :: ts' =>
      match s with
      | String c' s' => if ascii_eqb c c' then option_map S (re_match ts' s') else None
      | EmptyString => None
      end
  | RPlus cls :: ts' => try_len (re_match ts') s (run_len cls s)
  end.

(** [g_regex_match] + [g_match_info_fetch(matchInfo, 0)]: the leftmost match,
    returned as (text before, matched text, text after). *)
Fixpoint re_search (ts : list rtok) (s : string) : option (string * string * string) :=
  match re_match ts s with
  | Some n => Some (EmptyString, str_take n s, str_drop n s)
  | None =>
      match s with
      | EmptyString => None
      | String c s' =>
          match re_search ts s' with
          | Some (a, m, b) => Some (String c a, m, b)
          | None => None
          end
      end
  end.

(** [printf("%d", z)] *)
Definition printf_d (z : Z) : string := NilEmpty.string_of_int (Z.to_int z).

(** Value of a string of decimal digits. *)
Fixpoint digits_value_acc (acc : Z) (s : string) : Z :=
  match s with
  | EmptyString => acc
  | String c s' => digits_value_acc (10 * acc + Z.of_nat (Ascii.nat_of_ascii c - 48)) s'
  end.

Definition digits_value (s : string) : Z := digits_value_acc 0 s.

(** [sscanf] conversions used by the SDP code: a literal (no whitespace in
    the literals used here), [%[set]] / [%*[set]], [%d] / [%*d],
    [%s] / [%*s]; the boolean says whether the value is stored. *)
Inductive sdir :=
| SLit (s : string)
| SSet (cls : ascii -> bool) (store : bool)
| SInt (store : bool)
| SStr (store : bool).

Inductive sval :=
| VInt (z : Z)
| VStr (s : string).

Fixpoint skip_while (cls : ascii -> bool) (s : string) : string :=
  match s with
  | String c s' => if cls c then skip_while cls s' else s
  | EmptyString => s
  end.

Fixpoint lit_prefix (l s : string) : option string :=
  match l, s with
  | EmptyString, _ => Some s
  | String c l', String c' s' => if ascii_eqb c c' then lit_prefix l' s' else None
  | String _ _, EmptyString => None
  end.

(** [%d]: leading white space skipped, an optional sign, at least one digit. *)
Definition scan_int (s : string) : option (Z * string) :=
  let s1 := skip_while is_space s in
  let '(sign, s2) :=
    match s1 with
    | String c s' =>
        if ascii_eqb c "-" then (-1, s')
        else if ascii_eqb c "+" then (1, s')
        else (1, s1)
    | EmptyString => (1, s1)
    end in
  let n := run_len is_digit s2 in
  match n with
  | O => None
  | _ => Some (sign * digits_value (str_take n s2), str_drop n s2)
  end.

(** Conversion of a 64-bit value ([json_int_t], [long]) to a 32-bit [gint]
    (two's complement). *)
Definition wrap32 (z : Z) : Z :=
  let m := z mod 4294967296 in
  if Z.ltb m 2147483648 then m else Z.sub m 4294967296.

(** [strtol] saturates at [LONG_MIN] / [LONG_MAX] (64-bit [long]). *)
Definition clamp_long (z : Z) : Z :=
  if Z.ltb 9223372036854775807 z then 9223372036854775807
  else if Z.ltb z (-9223372036854775808) then -9223372036854775808
  else z.

(** The [gint] that [%d] stores for a run of decimal digits. *)
Definition scanf_d (p : string) : Z := wrap32 (clamp_long (digits_value p)).

(** The values stored by [sscanf(input, format, ...)], in order; scanning
    stops at the first failing directive.  glibc stores a [%d] into its
    [int *] target as [(int) strtol(...)]. *)
Fixpoint sscanf (fmt : list sdir) (s : string) : list sval :=
  match fmt with
  | [] => []
  | SLit l :: fmt' =>
      match lit_prefix l s with Some s' => sscanf fmt' s' | None => [] end
  | SSet cls st :: fmt' =>
      match run_len cls s with
      | O => []
      | n => let rest := sscanf fmt' (str_drop n s) in
             if st then VStr (str_take n s) :: rest else rest
      end
  | SInt st :: fmt' =>
      match scan_int s with
      | Some (z, s') =>
          let rest := sscanf fmt' s' in
          if st then VInt (wrap32 (clamp_long z)) :: rest else rest
      | None => []
      end
  | SStr st :: fmt' =>
      let s1 := skip_while is_space s in
      match run_len (fun c => negb (is_space c)) s1 with
      | O => []
      | n => let rest := sscanf fmt' (str_drop n s1) in
             if st then VStr (str_take n s1) :: rest else rest
      end
  end.

(** [strstr(input, old)]: (text before, text from the first occurrence). *)
Fixpoint strstr (s pat : string) : option (string * string) :=
  if prefix pat s then Some (EmptyString, s)
  else
    match s with
    | EmptyString => None
    | String c s' =>
        match strstr s' pat with
        | Some (a, b) => Some (String c a, b)
        | None => None
        end
    end.

(** [static gchar * str_replace_once(input, old_string, new_string)];
    [None] is the NULL returned when [old_string] does not occur. *)
Definition str_replace_once (input old_string new_string : string) : option string :=
  match strstr input old_string with
  | Some (prefix_, first_occurence) =>
      Some (prefix_ ++ new_string ++ str_drop (String.length old_string) first_occurence)
  | None => None
  end.

(* ------------------------------------------------------------------ *)
(** ** SDP utilities ([socket_utils.h], [sdp_utils.h]) *)

(** [typedef enum { IDILIA_CODEC_OPUS = 0, IDILIA_CODEC_VP8, IDILIA_CODEC_VP9,
    IDILIA_CODEC_H264, IDILIA_CODEC_MAX, IDILIA_CODEC_INVALID = -1 }] *)
Inductive idilia_codec :=
| IDILIA_CODEC_OPUS
| IDILIA_CODEC_VP8
| IDILIA_CODEC_VP9
| IDILIA_CODEC_H264
| IDILIA_CODEC_MAX
| IDILIA_CODEC_INVALID.

Definition idilia_codec_eqb (a b : idilia_codec) : bool :=
  match a, b with
  | IDILIA_CODEC_OPUS, IDILIA_CODEC_OPUS
  | IDILIA_CODEC_VP8, IDILIA_CODEC_VP8
  | IDILIA_CODEC_VP9, IDILIA_CODEC_VP9
  | IDILIA_CODEC_H264, IDILIA_CODEC_H264
  | IDILIA_CODEC_MAX, IDILIA_CODEC_MAX
  | IDILIA_CODEC_INVALID, IDILIA_CODEC_INVALID => true
  | _, _ => false
  end.

(** [codec_name_mapping[]] *)
Definition codec_name_mapping : list (string * idilia_codec) :=
  [ ("H264", IDILIA_CODEC_H264);
    ("VP8", IDILIA_CODEC_VP8);
    ("VP9", IDILIA_CODEC_VP9);
    ("opus", IDILIA_CODEC_OPUS);
    ("INVALID", IDILIA_CODEC_INVALID) ].

(** [const gchar * get_codec_name(idilia_codec codec)] *)
Definition get_codec_name (codec : idilia_codec) : string :=
  match find (fun m => idilia_codec_eqb codec (snd m)) codec_name_mapping with
  | Some (name, _) => name
  | None => "INVALID"
  end.

(** [idilia_codec sdp_codec_name_to_id(const gchar * name)]; [None] is a NULL
    [name] ([g_strcmp0] of a non-NULL string with NULL is non-zero). *)
Definition sdp_codec_name_to_id (name : option string) : idilia_codec :=
  match name with
  | None => IDILIA_CODEC_INVALID
  | Some n =>
      match find (fun m => String.eqb (fst m) n) codec_name_mapping with
      | Some (_, id) => id
      | None => IDILIA_CODEC_INVALID
      end
  end.

(** Regex ["a=rtpmap:[0-9]+[ \t]+%s/"] with the codec name. *)
Definition re_rtpmap_for_name (codec_str : string) : list rtok :=
  rlit "a=rtpmap:" ++ [RPlus is_digit; RPlus is_blank] ++ rlit (codec_str ++ "/").

(** [gint sdp_get_codec_pt(const gchar * sdp, idilia_codec codec)] *)
Definition sdp_get_codec_pt (sdp : string) (codec : idilia_codec) : Z :=
  let codec_str := get_codec_name codec in
  match re_search (re_rtpmap_for_name codec_str) sdp with
  | Some (_, result, _) =>
      (* sscanf(result, "a=rtpmap:%d%*[ \t]<name>/", &pt) *)
      match sscanf [SLit "a=rtpmap:"; SInt true; SSet is_blank false;
                    SLit (codec_str ++ "/")] result with
      | VInt pt :: _ => pt
      | _ => -1
      end
  | None => -1
  end.

(** Regex ["a=rtpmap:%d[ \t]+[a-zA-Z0-9]+"] with the payload type. *)
Definition re_rtpmap_for_pt (pt : Z) : list rtok :=
  rlit ("a=rtpmap:" ++ printf_d pt) ++ [RPlus is_blank; RPlus is_alnum].

(** [static idilia_codec sdp_pt_to_codec_id(const char * sdp, gint pt)].  When
    the regex matches, the [sscanf] below always stores the name (the match
    has that shape); the unassigned [g_malloc] buffer case is given the
    empty string. *)
Definition sdp_pt_to_codec_id (sdp : string) (pt : Z) : idilia_codec :=
  let name :=
    match re_search (re_rtpmap_for_pt pt) sdp with
    | Some (_, result, _) =>
        (* sscanf(result, "a=rtpmap:<pt>%*[ \t]%s", name) *)
        match sscanf [SLit ("a=rtpmap:" ++ printf_d pt); SSet is_blank false;
                      SStr true] result with
        | VStr n :: _ => Some n
        | _ => Some EmptyString
        end
    | None => None
    end in
  sdp_codec_name_to_id name.

Definition savpf : string := "UDP/TLS/RTP/SAVPF".

(** Regex ["m=%s[ \t]+[0-9]+[ \t]+UDP/TLS/RTP/SAVPF[ \t]+[0-9]+"]. *)
Definition re_media_line (type_ : string) : list rtok :=
  rlit ("m=" ++ type_) ++ [RPlus is_blank; RPlus is_digit; RPlus is_blank]
    ++ rlit savpf ++ [RPlus is_blank; RPlus is_digit].

(** [static gint sdp_get_codec_pt_for_type(const gchar * sdp, const gchar * type)] *)
Definition sdp_get_codec_pt_for_type (sdp type_ : string) : Z :=
  match re_search (re_media_line type_) sdp with
  | Some (_, result, _) =>
      (* sscanf(result, "m=<type>%*[ \t]%*d%*[ \t]UDP/TLS/RTP/SAVPF%*[ \t]%d", &codec_pt) *)
      match sscanf [SLit ("m=" ++ type_); SSet is_blank false; SInt false;
                    SSet is_blank false; SLit savpf; SSet is_blank false;
                    SInt true] result with
      | VInt pt :: _ => pt
      | _ => -1
      end
  | None => -1
  end.

(** [idilia_codec sdp_get_video_codec(const gchar * sdp)] *)
Definition sdp_get_video_codec (sdp : string) : idilia_codec :=
  sdp_pt_to_codec_id sdp (sdp_get_codec_pt_for_type sdp "video").

(** [idilia_codec sdp_get_audio_codec(const gchar * sdp)] *)
Definition sdp_get_audio_codec (sdp : string) : idilia_codec :=
  sdp_pt_to_codec_id sdp (sdp_get_codec_pt_for_type sdp "audio").

(** Regex ["m=video[ \t]+[0-9]+[ \t]+UDP/TLS/RTP/SAVPF[ \t]+[0-9]+[ \t]+[0-9]+"]. *)
Definition re_video_two_pts : list rtok :=
  re_media_line "video" ++ [RPlus is_blank; RPlus is_digit].

(** [gchar * sdp_set_video_codec(const gchar * sdp_offer, idilia_codec video_codec)];
    [None] is a NULL result. *)
Definition sdp_set_video_codec (sdp_offer : string) (video_codec : idilia_codec)
  : option string :=
  let current_codec_pt := sdp_get_codec_pt_for_type sdp_offer "video" in
  let desired_codec_pt := sdp_get_codec_pt sdp_offer video_codec in
  if (Z.eqb current_codec_pt desired_codec_pt
      || idilia_codec_eqb video_codec IDILIA_CODEC_INVALID)%bool then
    Some sdp_offer
  else
    match re_search re_video_two_pts sdp_offer with
    | Some (_, result, _) =>
        (* sscanf(result, "m=video%*[ \t]%d%*[ \t]UDP/TLS/RTP/SAVPF%*[ \t]%d%*[ \t]%d",
                  &port_video, &codec1, &codec2) *)
        let vals := sscanf [SLit "m=video"; SSet is_blank false; SInt true;
                            SSet is_blank false; SLit savpf; SSet is_blank false;
                            SInt true; SSet is_blank false; SInt true] result in
        let '(port_video, codec1, codec2) :=
          match vals with
          | [VInt a; VInt b; VInt c] => (a, b, c)
          | [VInt a; VInt b] => (a, b, -1)
          | [VInt a] => (a, -1, -1)
          | _ => (-1, -1, -1)
          end in
        let codec1 := if negb (Z.eqb codec2 desired_codec_pt) then codec2 else codec1 in
        let new_line := "m=video " ++ printf_d port_video ++ " " ++ savpf ++ " "
                        ++ printf_d desired_codec_pt ++ " " ++ printf_d codec1 in
        str_replace_once sdp_offer result new_line
    | None => Some sdp_offer
    end.

(* ------------------------------------------------------------------ *)
(** ** Session controller ([idilia_source.c]) *)

(** JSON values built by the plugin (jansson). *)
#[warnings="-register-all"]
Inductive json :=
| JString (s : string)
| JInt (z : Z)
| JObject (fields : list (string * json)).

(** RTCP packets built by [janus_rtcp_remb] / [janus_rtcp_pli] (gateway
    helpers); only the carried bitrate matters here. *)
Inductive rtcp_packet :=
| RtcpRemb (bitrate : Z)
| RtcpPli.

(** Observable actions of the plugin on its collaborators.  [PushEvent]
    carries what the event object holds when [gateway->push_event] reads it,
    [None] when that object has already been freed. *)
Inductive effect :=
| CurlRequest (url body method_ : string)
| PushEvent (event : option json)
| RelayRtcp (video : Z) (pkt : rtcp_packet)
| SocketSend (port : Z) (buf : list Z)
| RemoveMountpoint (id : option string) (data_live : bool)
| AddMountpoint (id : option string)
| ConnectFactorySignals
| JoinThread (name : string).

(** [janus_source_session] (fields used here; [codec[]]/[codec_pt[]] split
    per stream, [sockets] is the GHashTable or NULL, [callback_data] a
    pointer into [ps_callback_data]). *)
Record janus_source_session := mk_session {
  s_audio_active : bool;
  s_video_active : bool;
  s_bitrate : Z;              (* uint64_t *)
  s_slowlink_count : Z;       (* guint16 *)
  s_hangingup : Z;            (* volatile gint *)
  s_destroyed : Z;            (* gint64 *)
  s_db_entry_session_id : option string;
  s_rtsp_url : option string;
  s_id : option string;
  s_codec_video : idilia_codec;
  s_codec_audio : idilia_codec;
  s_codec_pt_video : Z;
  s_codec_pt_audio : Z;
  s_sockets : option (list (string * janus_source_socket));
  s_callback_data : option nat
}.

(** Process-wide globals of [idilia_source.c] that the entry points read. *)
Record globals := mk_globals {
  g_stopping : bool;
  g_initialized : bool;
  g_gateway : bool;               (* gateway != NULL *)
  g_rtsp_server_data : bool;      (* rtsp_server_data != NULL *)
  g_status_service_url : string;
  g_keepalive_service_url : string;
  g_PID : string
}.

(** The handle ([janus_plugin_session]) with its session, the sessions map
    and lazy-free list as seen for that handle, the port pool, the live
    [pipeline_callback_data_t] objects (with their [sockets] tables), the
    jansson heap and the trace of effects. *)
Record plugin_state := mk_ps {
  ps_handle_stopped : bool;
  ps_attached : bool;                 (* handle->plugin_handle != NULL *)
  ps_session : janus_source_session;  (* *handle->plugin_handle *)
  ps_in_sessions : bool;              (* handle is a key of [sessions] *)
  ps_old_sessions : nat;              (* length of [old_sessions] *)
  ps_pool : ports_pool;
  ps_callback_data : list (nat * list (string * janus_source_socket));
  ps_json : list (nat * (Z * json));  (* pointer -> (refcount, value) *)
  ps_next : nat;
  ps_trace : list effect
}.

Definition M (A : Type) : Type := plugin_state -> A * plugin_state.
Definition ret {A} (a : A) : M A := fun s => (a, s).
Definition bind {A B} (m : M A) (k : A -> M B) : M B :=
  fun s => let '(a, s') := m s in k a s'.
Notation "x <- m ;; k" := (bind m (fun x => k)) (at level 61, m at next level, right associativity).
Notation "m ;;; k" := (bind m (fun _ => k)) (at level 61, right associativity).

Definition modify (f : plugin_state -> plugin_state) : M unit := fun s => (tt, f s).
Definition gets {A} (f : plugin_state -> A) : M A := fun s => (f s, s).

Definition emit (e : effect) : M unit :=
  modify (fun s => mk_ps (ps_handle_stopped s) (ps_attached s) (ps_session s)
                     (ps_in_sessions s) (ps_old_sessions s) (ps_pool s)
                     (ps_callback_data s) (ps_json s) (ps_next s)
                     (ps_trace s ++ [e])).

Definition get_session : M janus_source_session := gets ps_session.

Definition put_session (ss : janus_source_session) : M unit :=
  modify (fun s => mk_ps (ps_handle_stopped s) (ps_attached s) ss
                     (ps_in_sessions s) (ps_old_sessions s) (ps_pool s)
                     (ps_callback_data s) (ps_json s) (ps_next s) (ps_trace s)).

Definition put_json (h : list (nat * (Z * json))) (next : nat) : M unit :=
  modify (fun s => mk_ps (ps_handle_stopped s) (ps_attached s) (ps_session s)
                     (ps_in_sessions s) (ps_old_sessions s) (ps_pool s)
                     (ps_callback_data s) h next (ps_trace s)).

Definition put_pool (pp : ports_pool) : M unit :=
  modify (fun s => mk_ps (ps_handle_stopped s) (ps_attached s) (ps_session s)
                     (ps_in_sessions s) (ps_old_sessions s) pp
                     (ps_callback_data s) (ps_json s) (ps_next s) (ps_trace s)).

Definition put_callback_data (cbs : list (nat * list (string * janus_source_socket)))
  : M unit :=
  modify (fun s => mk_ps (ps_handle_stopped s) (ps_attached s) (ps_session s)
                     (ps_in_sessions s) (ps_old_sessions s) (ps_pool s)
                     cbs (ps_json s) (ps_next s) (ps_trace s)).

Definition put_sessions_map (in_map : bool) (old : nat) : M unit :=
  modify (fun s => mk_ps (ps_handle_stopped s) (ps_attached s) (ps_session s)
                     in_map old (ps_pool s)
                     (ps_callback_data s) (ps_json s) (ps_next s) (ps_trace s)).

Fixpoint assoc {A} (k : nat) (l : list (nat * A)) : option A :=
  match l with
  | [] => None
  | (k', v) :: l' => if Nat.eqb k k' then Some v else assoc k l'
  end.

Definition assoc_remove {A} (k : nat) (l : list (nat * A)) : list (nat * A) :=
  filter (fun kv => negb (Nat.eqb k (fst kv))) l.

(** [g_hash_table_lookup] on a string-keyed table (NULL table: NULL). *)
Fixpoint table_lookup (l : list (string * janus_source_socket)) (k : string)
  : option janus_source_socket :=
  match l with
  | [] => None
  | (k', v) :: l' => if String.eqb k k' then Some v else table_lookup l' k
  end.

(** jansson: [json_object()], [json_object_set_new], [json_decref]. *)
Definition json_object : M nat :=
  p <- gets ps_next ;;
  h <- gets ps_json ;;
  put_json ((p, (1, JObject [])) :: h) (S p) ;;;
  ret p.

Definition json_object_set_new (p : nat) (key : string) (v : json) : M unit :=
  h <- gets ps_json ;;
  next <- gets ps_next ;;
  match assoc p h with
  | Some (rc, JObject fs) =>
      put_json ((p, (rc, JObject (fs ++ [(key, v)]))) :: assoc_remove p h) next
  | _ => ret tt
  end.

Definition json_decref (p : nat) : M unit :=
  h <- gets ps_json ;;
  next <- gets ps_next ;;
  match assoc p h with
  | Some (rc, v) =>
      if Z.leb rc 1 then put_json (assoc_remove p h) next
      else put_json ((p, (Z.sub rc 1, v)) :: assoc_remove p h) next
  | None => ret tt
  end.

(** [gateway->push_event(handle, &janus_source_plugin, transaction, event, NULL)]:
    the gateway reads the event object. *)
Definition push_event (p : nat) : M unit :=
  h <- gets ps_json ;;
  emit (PushEvent (option_map snd (assoc p h))).

(** Field updates of [janus_source_session]. *)
Definition set_active (ss : janus_source_session) (audio video : bool) (bitrate : Z) :=
  mk_session audio video bitrate (s_slowlink_count ss) (s_hangingup ss)
    (s_destroyed ss) (s_db_entry_session_id ss) (s_rtsp_url ss) (s_id ss)
    (s_codec_video ss) (s_codec_audio ss) (s_codec_pt_video ss)
    (s_codec_pt_audio ss) (s_sockets ss) (s_callback_data ss).

Definition set_slowlink_count (ss : janus_source_session) (n : Z) :=
  mk_session (s_audio_active ss) (s_video_active ss) (s_bitrate ss) n
    (s_hangingup ss) (s_destroyed ss) (s_db_entry_session_id ss) (s_rtsp_url ss)
    (s_id ss) (s_codec_video ss) (s_codec_audio ss) (s_codec_pt_video ss)
    (s_codec_pt_audio ss) (s_sockets ss) (s_callback_data ss).

Definition set_hangingup (ss : janus_source_session) (n : Z) :=
  mk_session (s_audio_active ss) (s_video_active ss) (s_bitrate ss)
    (s_slowlink_count ss) n (s_destroyed ss) (s_db_entry_session_id ss)
    (s_rtsp_url ss) (s_id ss) (s_codec_video ss) (s_codec_audio ss)
    (s_codec_pt_video ss) (s_codec_pt_audio ss) (s_sockets ss) (s_callback_data ss).

Definition set_destroyed (ss : janus_source_session) (t : Z) :=
  mk_session (s_audio_active ss) (s_video_active ss) (s_bitrate ss)
    (s_slowlink_count ss) (s_hangingup ss) t (s_db_entry_session_id ss)
    (s_rtsp_url ss) (s_id ss) (s_codec_video ss) (s_codec_audio ss)
    (s_codec_pt_video ss) (s_codec_pt_audio ss) (s_sockets ss) (s_callback_data ss).

Definition set_strings (ss : janus_source_session) (db rtsp_url id : option string) :=
  mk_session (s_audio_active ss) (s_video_active ss) (s_bitrate ss)
    (s_slowlink_count ss) (s_hangingup ss) (s_destroyed ss) db rtsp_url id
    (s_codec_video ss) (s_codec_audio ss) (s_codec_pt_video ss)
    (s_codec_pt_audio ss) (s_sockets ss) (s_callback_data ss).

Definition set_codecs (ss : janus_source_session) (cv ca : idilia_codec) (ptv pta : Z) :=
  mk_session (s_audio_active ss) (s_video_active ss) (s_bitrate ss)
    (s_slowlink_count ss) (s_hangingup ss) (s_destroyed ss)
    (s_db_entry_session_id ss) (s_rtsp_url ss) (s_id ss) cv ca ptv pta
    (s_sockets ss) (s_callback_data ss).

Definition set_sockets (ss : janus_source_session)
    (t : option (list (string * janus_source_socket))) (cb : option nat) :=
  mk_session (s_audio_active ss) (s_video_active ss) (s_bitrate ss)
    (s_slowlink_count ss) (s_hangingup ss) (s_destroyed ss)
    (s_db_entry_session_id ss) (s_rtsp_url ss) (s_id ss) (s_codec_video ss)
    (s_codec_audio ss) (s_codec_pt_video ss) (s_codec_pt_audio ss) t cb.

(** [printf("%s", s)] with glibc's rendering of a NULL string. *)
Definition printf_s (s : option string) : string :=
  match s with Some x => x | None => "(null)" end.

(** The double quote character. *)
Definition dq : string := String (Ascii.ascii_of_nat 34) EmptyString.

(** Common guard of the host entry points:
    [handle == NULL || handle->stopped || stopping || !initialized]. *)
Definition entry_blocked (g : globals) (handle_null : bool) : M bool :=
  stopped <- gets ps_handle_stopped ;;
  ret (handle_null || stopped || g_stopping g || negb (g_initialized g))%bool.

(** [void janus_source_relay_rtp(janus_source_session *session, int video, char *buf, int len)] *)
Definition janus_source_relay_rtp (session : janus_source_session) (video : Z)
    (buf : list Z) : M unit :=
  let name := if negb (Z.eqb video 0) then "video_rtp_cli" else "audio_rtp_cli" in
  match s_sockets session with
  | Some tbl =>
      match table_lookup tbl name with
      | Some sck => (* g_socket_send(sck->socket, buf, len, NULL, NULL) *)
                    emit (SocketSend (sck_port sck) buf)
      | None => (* "Unable to lookup for rtp_cli" *) ret tt
      end
  | None => (* g_hash_table_lookup(NULL, ...) returns NULL *) ret tt
  end.

(** [void janus_source_incoming_rtp(janus_plugin_session *handle, int video, char *buf, int len)] *)
Definition janus_source_incoming_rtp (g : globals) (handle_null : bool) (video : Z)
    (buf : list Z) : M unit :=
  blocked <- entry_blocked g handle_null ;;
  if blocked then ret tt
  else if negb (g_gateway g) then ret tt
  else
    (attached <- gets ps_attached ;;
     if negb attached then ret tt
     else
       (session <- get_session ;;
        if negb (Z.eqb (s_destroyed session) 0) then ret tt
        else if ((Z.eqb video 0 && s_audio_active session)
                 || (negb (Z.eqb video 0) && s_video_active session))%bool
        then janus_source_relay_rtp session video buf
        else ret tt)).

(** [void janus_source_slow_link(janus_plugin_session *handle, int uplink, int video)] *)
Definition janus_source_slow_link (g : globals) (handle_null : bool) (uplink video : Z)
  : M unit :=
  blocked <- entry_blocked g handle_null ;;
  if blocked then ret tt
  else
    (attached <- gets ps_attached ;;
     if negb attached then ret tt
     else
       (session0 <- get_session ;;
        if negb (Z.eqb (s_destroyed session0) 0) then ret tt
        else
          (* session->slowlink_count++ (guint16) *)
          let session := set_slowlink_count session0
                           ((s_slowlink_count session0 + 1) mod 65536) in
          put_session session ;;;
          if (negb (Z.eqb uplink 0) && Z.eqb video 0 && negb (s_audio_active session))%bool
          then ret tt
          else if (negb (Z.eqb uplink 0) && negb (Z.eqb video 0)
                   && negb (s_video_active session))%bool
          then ret tt
          else if negb (Z.eqb video 0) then
            (* Halve the bitrate, but don't go too low... *)
            let b1 := if Z.ltb 0 (s_bitrate session) then s_bitrate session else 512 * 1024 in
            let b2 := b1 / 2 in
            let b3 := if Z.ltb b2 (64 * 1024) then 64 * 1024 else b2 in
            put_session (set_active session (s_audio_active session)
                           (s_video_active session) b3) ;;;
            (* janus_rtcp_remb(rtcpbuf, 24, bitrate); relay_rtcp(handle, 1, ...) *)
            emit (RelayRtcp 1 (RtcpRemb b3)) ;;;
            event <- json_object ;;
            json_object_set_new event "source" (JString "event") ;;;
            json_object_set_new event "result"
              (JObject [("status", JString "slow_link"); ("bitrate", JInt b3)]) ;;;
            push_event event ;;;
            json_decref event
          else ret tt)).

(** [void janus_source_hangup_media(janus_plugin_session *handle)] *)
Definition janus_source_hangup_media (g : globals) : M unit :=
  if (g_stopping g || negb (g_initialized g))%bool then ret tt
  else
    (attached <- gets ps_attached ;;
     if negb attached then ret tt
     else
       (session <- get_session ;;
        if negb (Z.eqb (s_destroyed session) 0) then ret tt
        else
          (* g_atomic_int_add(&session->hangingup, 1) returns the old value *)
          let old := s_hangingup session in
          put_session (set_hangingup session (old + 1)) ;;;
          if negb (Z.eqb old 0) then ret tt
          else
            (event <- json_object ;;
             json_object_set_new event "source" (JString "event") ;;;
             json_object_set_new event "result" (JString "done") ;;;
             push_event event ;;;
             json_decref event ;;;
             (* Reset controls *)
             session' <- get_session ;;
             put_session (set_active session' true true 0)))).

(** [#define JANUS_SOURCE_ERROR_INVALID_URL_ID 414] *)
Definition JANUS_SOURCE_ERROR_INVALID_URL_ID : Z := 414.

(** [void janus_source_send_id_error(janus_plugin_session *handle)] *)
Definition janus_source_send_id_error (g : globals) : M unit :=
  if (g_stopping g || negb (g_initialized g))%bool then ret tt
  else
    (attached <- gets ps_attached ;;
     if negb attached then ret tt
     else
       (session <- get_session ;;
        if negb (Z.eqb (s_destroyed session) 0) then ret tt
        else
          let error_cause := "JSON error: URL ID " ++ printf_s (s_id session)
                             ++ " already exist in the system." in
          event <- json_object ;;
          json_object_set_new event "source" (JString "event") ;;;
          json_object_set_new event "error_code" (JInt JANUS_SOURCE_ERROR_INVALID_URL_ID) ;;;
          json_object_set_new event "error" (JString error_cause) ;;;
          (* event_text = json_dumps(event, ...); json_decref(event); *)
          json_decref event ;;;
          push_event event)).

(** Fresh heap address (shared by all allocations of the model). *)
Definition g_new0 : M nat :=
  p <- gets ps_next ;;
  h <- gets ps_json ;;
  put_json h (S p) ;;;
  ret p.

(** The segment after the last ['/'] (the last element of
    [g_regex_split_simple("\\/", s, 0, 0)]). *)
Fixpoint last_segment_acc (acc s : string) : string :=
  match s with
  | EmptyString => acc
  | String c s' =>
      if ascii_eqb c "/"%char then last_segment_acc EmptyString s'
      else last_segment_acc (acc ++ String c EmptyString) s'
  end.

Definition last_segment (s : string) : string := last_segment_acc EmptyString s.

(** [gchar *janus_source_create_json_request(gchar *request)]:
    [json_dumps({"uri": request, "id": <last segment>}, JSON_PRESERVE_ORDER)]. *)
Definition janus_source_create_json_request (request : string) : string :=
  "{" ++ dq ++ "uri" ++ dq ++ ": " ++ dq ++ request ++ dq ++ ", "
      ++ dq ++ "id" ++ dq ++ ": " ++ dq ++ last_segment request ++ dq ++ "}".

(** [json_object_get] on an object. *)
Fixpoint json_object_get (fs : list (string * json)) (key : string) : option json :=
  match fs with
  | [] => None
  | (k, v) :: fs' => if String.eqb k key then Some v else json_object_get fs' key
  end.

(** [json_integer_value]: 0 when the value is not an integer. *)
Definition json_integer_value (j : option json) : Z :=
  match j with Some (JInt z) => z | _ => 0 end.

(** [json_string_value]: NULL when the value is not a string. *)
Definition json_string_value (j : option json) : option string :=
  match j with Some (JString s) => Some s | _ => None end.

(** The registry's answer to the POST of [curl_request]: [None] when
    [curl_request] does not return TRUE, otherwise the parsed body. *)
Definition registry_response := option json.

(** [void janus_rtsp_handle_client_callback(gpointer data)].
    [srv_sockets] and [cli_sockets] are the tables the ten
    [create_server_socket] / [create_client_socket] calls fill in
    ([callback_data->sockets] and [session->sockets]); the launch pipe,
    the media factory and the RTCP callbacks have no effect observed here. *)
Definition janus_rtsp_handle_client_callback (g : globals) (rtsp_ip : string)
    (rtsp_port : Z) (srv_sockets cli_sockets : list (string * janus_source_socket))
    (response : registry_response) : M unit :=
  session <- get_session ;;
  if (negb (Z.eqb (s_hangingup session) 0) || negb (Z.eqb (s_destroyed session) 0))%bool
  then (* "Session is being destroyed" *) ret tt
  else
    (callback_data <- g_new0 ;;
     let rtsp_url := "rtsp://" ++ rtsp_ip ++ ":" ++ printf_d rtsp_port ++ "/"
                     ++ printf_s (s_id session) in
     let session1 := set_sockets
                       (set_strings session (s_db_entry_session_id session)
                          (Some rtsp_url) (s_id session))
                       (Some cli_sockets) (Some callback_data) in
     put_session session1 ;;;
     cbs <- gets ps_callback_data ;;
     put_callback_data ((callback_data, srv_sockets) :: cbs) ;;;
     let http_request_data := janus_source_create_json_request rtsp_url in
     emit (CurlRequest (g_status_service_url g) http_request_data "POST") ;;;
     match response with
     | None => (* "Could not send the request to the server" *) ret tt
     | Some (JObject fs) =>
         let code_err := wrap32 (json_integer_value (json_object_get fs "code")) in
         if negb (Z.eqb code_err 0) then
           (if String.eqb "11000" (printf_d code_err) then
              janus_source_hangup_media g ;;;
              janus_source_send_id_error g
            else ret tt)
         else
           (emit ConnectFactorySignals ;;;
            emit (AddMountpoint (s_id session1)) ;;;
            session2 <- get_session ;;
            put_session (set_strings session2
                           (json_string_value (json_object_get fs "_id"))
                           (s_rtsp_url session2) (s_id session2)))
     | Some _ => (* "Not valid json object." *) ret tt
     end).

(** [close_and_destroy_sockets]: [socket_utils_close_socket] returns each
    socket's port to the pool. *)
Fixpoint close_and_destroy_sockets (tbl : list (string * janus_source_socket)) : M unit :=
  match tbl with
  | [] => ret tt
  | (_, sck) :: tbl' =>
      pool <- gets ps_pool ;;
      put_pool (ports_pool_return pool (sck_port sck)) ;;;
      close_and_destroy_sockets tbl'
  end.

(** [void janus_source_rtsp_remove_mountpoint(rtsp_server, id, data)], ending in
    [pipeline_callback_data_destroy(data)].  [data_live] of the effect records
    whether [data] still designates live callback data. *)
Definition janus_source_rtsp_remove_mountpoint (id : option string) (data : nat) : M unit :=
  cbs <- gets ps_callback_data ;;
  match assoc data cbs with
  | Some sockets =>
      emit (RemoveMountpoint id true) ;;;
      (* pipeline_callback_data_destroy(data) *)
      close_and_destroy_sockets sockets ;;;
      put_callback_data (assoc_remove data cbs)
  | None => emit (RemoveMountpoint id false)
  end.

(** [static void janus_source_close_session(janus_source_session * session)] *)
Definition janus_source_close_session (g : globals) : M unit :=
  session <- get_session ;;
  let session_id := s_db_entry_session_id session in
  let curl_str := g_status_service_url g ++ "/" ++ printf_s session_id in
  emit (CurlRequest curl_str "{}" "DELETE") ;;;
  (match s_callback_data session with
   | Some d => if g_rtsp_server_data g
               then janus_source_rtsp_remove_mountpoint (s_id session) d
               else ret tt
   | None => ret tt
   end) ;;;
  (match s_sockets session with
   | Some tbl => close_and_destroy_sockets tbl ;;;
                 session' <- get_session ;;
                 put_session (set_sockets session' None (s_callback_data session'))
   | None => ret tt
   end) ;;;
  session'' <- get_session ;;
  put_session (set_strings session'' None None None).

(** [void janus_source_destroy_session(janus_plugin_session *handle, int *error)];
    the result is the value stored in [*error], if any.  [now] is
    [janus_get_monotonic_time()]. *)
Definition janus_source_destroy_session (g : globals) (now : Z) : M (option Z) :=
  if (g_stopping g || negb (g_initialized g))%bool then ret (Some (-1))
  else
    (attached <- gets ps_attached ;;
     if negb attached then ret (Some (-2))
     else
       (janus_source_close_session g ;;;
        session <- get_session ;;
        if Z.eqb (s_destroyed session) 0 then
          (put_session (set_destroyed session now) ;;;
           old <- gets ps_old_sessions ;;
           put_sessions_map false (S old) ;;;
           ret None)
        else ret None)).

(** [void janus_source_remove_pid_from_registry(void)] *)
Definition janus_source_remove_pid_from_registry (g : globals) : M unit :=
  let curl_str := g_keepalive_service_url g ++ "/" ++ g_PID g in
  let _ := curl_str in
  emit (CurlRequest (g_keepalive_service_url g) "{}" "DELETE").

(** The plugin's threads that are running when [janus_source_destroy] starts. *)
Record threads := mk_threads {
  th_handler : bool;
  th_rtsp : bool;
  th_keepalive : bool;
  th_watchdog : bool
}.

Definition join_if (running : bool) (name : string) : M unit :=
  if running then emit (JoinThread name) else ret tt.

(** [void janus_source_destroy(void)]: the sessions map holds at most the
    modelled session; [close_session_func] closes it. *)
Definition janus_source_destroy (g : globals) (th : threads) : M unit :=
  if negb (g_initialized g) then ret tt
  else
    (join_if (th_handler th) "handler" ;;;
     in_map <- gets ps_in_sessions ;;
     (if in_map then janus_source_close_session g else ret tt) ;;;
     join_if (th_rtsp th) "rtsp" ;;;
     join_if (th_keepalive th) "keepalive" ;;;
     (* keepalive == NULL *)
     janus_source_remove_pid_from_registry g ;;;
     join_if (th_watchdog th) "watchdog").

(** A branch of the launch pipeline: [g_strdup_printf(PIPE_*, pt, rtp_srv,
    rtcp_rcv_srv, port)]. *)
Inductive pipe_branch :=
  | PipeVideoVP8 (pt : Z) (rtp_srv rtcp_rcv_srv : string) (port : Z)
  | PipeVideoVP9 (pt : Z) (rtp_srv rtcp_rcv_srv : string) (port : Z)
  | PipeVideoH264 (pt : Z) (rtp_srv rtcp_rcv_srv : string) (port : Z)
  | PipeAudioOpus (pt : Z) (rtp_srv rtcp_rcv_srv : string) (port : Z).

(** The composed launch pipe: [( %s name=pay0  %s name=pay1 )] or
    [( %s name=pay0 )]; a NULL branch is printed as ["(null)"] ([None]). *)
Inductive launch_pipe :=
  | LaunchTwo (video audio : option pipe_branch)
  | LaunchOne (b : option pipe_branch).

(** [JANUS_SOURCE_STREAM_VIDEO = 0], [JANUS_SOURCE_STREAM_AUDIO = 1]. *)
Definition stream_names (video : bool) : string * string * string :=
  if video then ("video_rtcp_snd_srv", "video_rtp_srv", "video_rtcp_rcv_srv")
  else ("audio_rtcp_snd_srv", "audio_rtp_srv", "audio_rtcp_rcv_srv").

(** [static gchar * janus_source_create_launch_pipe(session, data)] *)
Definition janus_source_create_launch_pipe (session : janus_source_session)
  : option launch_pipe :=
  let tbl := match s_sockets session with Some t => t | None => [] end in
  let stream (video : bool) (codec : idilia_codec) (pt : Z)
        (acc : option (option pipe_branch * option pipe_branch))
      : option (option pipe_branch * option pipe_branch) :=
    match acc with
    | None => None
    | Some (v, a) =>
        let '(snd, rtp, rcv) := stream_names video in
        match table_lookup tbl snd with
        | None => None
        | Some sck =>
            let port := sck_port sck in
            match codec with
            | IDILIA_CODEC_VP8 => Some (Some (PipeVideoVP8 pt rtp rcv port), a)
            | IDILIA_CODEC_VP9 => Some (Some (PipeVideoVP9 pt rtp rcv port), a)
            | IDILIA_CODEC_H264 => Some (Some (PipeVideoH264 pt rtp rcv port), a)
            | IDILIA_CODEC_OPUS => Some (v, Some (PipeAudioOpus pt rtp rcv port))
            | _ => Some (v, a)
            end
        end
    end in
  match stream false (s_codec_audio session) (s_codec_pt_audio session)
          (stream true (s_codec_video session) (s_codec_pt_video session)
             (Some (None, None))) with
  | None => None
  | Some (v, a) =>
      let cv := s_codec_video session in
      let ca := s_codec_audio session in
      if negb (idilia_codec_eqb cv IDILIA_CODEC_INVALID)
         && negb (idilia_codec_eqb ca IDILIA_CODEC_INVALID) then Some (LaunchTwo v a)
      else if negb (idilia_codec_eqb cv IDILIA_CODEC_INVALID) then Some (LaunchOne v)
      else if negb (idilia_codec_eqb ca IDILIA_CODEC_INVALID) then Some (LaunchOne a)
      else (* launch_pipe stays NULL *) None
  end.

(** [static idilia_codec janus_source_select_video_codec_by_priority_list(sdp)] *)
Definition janus_source_select_video_codec_by_priority_list
    (codec_priority_list : list idilia_codec) (sdp : string) : idilia_codec :=
  match find (fun c => negb (Z.eqb (sdp_get_codec_pt sdp c) (-1))) codec_priority_list with
  | Some c => c
  | None => IDILIA_CODEC_INVALID
  end.

(** [static idilia_codec codec_priority_list[] = { INVALID, INVALID }] *)
Definition default_codec_priority_list : list idilia_codec :=
  [IDILIA_CODEC_INVALID; IDILIA_CODEC_INVALID].

(** [static gchar * janus_source_do_codec_negotiation(session, orig_sdp)] *)
Definition janus_source_do_codec_negotiation (codec_priority_list : list idilia_codec)
    (session : janus_source_session) (orig_sdp : string)
  : option (string * janus_source_session) :=
  let preferred_codec :=
    janus_source_select_video_codec_by_priority_list codec_priority_list orig_sdp in
  match sdp_set_video_codec orig_sdp preferred_codec with
  | None => None
  | Some sdp =>
      let cv := sdp_get_video_codec sdp in
      let ca := sdp_get_audio_codec sdp in
      Some (sdp, set_codecs session cv ca (sdp_get_codec_pt sdp cv) (sdp_get_codec_pt sdp ca))
  end.

(* ------------------------------------------------------------------ *)
(** ** Plugin configuration ([janus_source_init], [janus_source_parse_*]) *)

(** [strrchr(s, c)] followed by [*p = '\0'; p++]: the text before and after
    the last occurrence of [c], or [None] (NULL) when [c] does not occur. *)
Fixpoint strrchr_split (c : ascii) (s : string) : option (string * string) :=
  match s with
  | EmptyString => None
  | String x s' =>
      match strrchr_split c s' with
      | Some (a, b) => Some (String x a, b)
      | None => if ascii_eqb x c then Some (EmptyString, s') else None
      end
  end.

(** glibc [atoi(s)] is [(int) strtol(s, NULL, 10)]: leading white space, an
    optional sign, the decimal digits that follow; 0 when there is none. *)
Definition atoi (s : string) : Z :=
  match scan_int s with
  | Some (v, _) => wrap32 (clamp_long v)
  | None => 0
  end.

(** Assignment to a [uint16_t] / [uint32_t]. *)
Definition to_u16 (z : Z) : Z := z mod 65536.
Definition to_u32 (z : Z) : Z := z mod 4294967296.

(** [#define G_USEC_PER_SEC 1000000] *)
Definition G_USEC_PER_SEC : Z := 1000000.

(** A category of the configuration file: its name ([cat->name]) and its
    items; [janus_config_get_item(cat, key)] is the first item named [key],
    and an item's [value] may be NULL. *)
Record janus_config_category := mk_category {
  cat_name : option string;
  cat_items : list (string * option string)
}.

Fixpoint janus_config_get_item (items : list (string * option string)) (key : string)
  : option (option string) :=
  match items with
  | [] => None
  | (k, v) :: items' => if String.eqb k key then Some v else janus_config_get_item items' key
  end.

(** [item && item->value]: the value of a present item. *)
Definition item_value (item : option (option string)) : option string :=
  match item with Some (Some v) => Some v | _ => None end.

(** The configuration globals of [idilia_source.c]. *)
Record config_globals := mk_config {
  c_udp_min_port : Z;                 (* uint16_t *)
  c_udp_max_port : Z;                 (* uint16_t *)
  c_keepalive_interval : Z;           (* uint64_t *)
  c_keepalive_service_url : option string;
  c_status_service_url : option string;
  c_use_codec_priority : bool;
  c_codec_priority_list : list idilia_codec;
  c_rtsp_interface_ip : option string
}.

(** Their static initial values. *)
Definition config_initial : config_globals :=
  mk_config 0 0 5000000 None None false default_codec_priority_list None.

(** [static void janus_source_parse_ports_range(ports_range, &min, &max)] *)
Definition janus_source_parse_ports_range (ports_range : option (option string))
    (min_port max_port : Z) : Z * Z :=
  match item_value ports_range with
  | None => (min_port, max_port)
  | Some value =>
      let '(mn, mx) :=
        match strrchr_split "-"%char value with
        | Some (a, b) => (to_u16 (atoi a), to_u16 (atoi b))
        | None => (min_port, max_port)
        end in
      let '(mn, mx) := if Z.ltb mx mn then (mx, mn) else (mn, mx) in
      (mn, if Z.eqb mx 0 then 65535 else mx)
  end.

(** [static void janus_source_parse_keepalive_interval(item, &keepalive_interval)].
    It is only ever called on [&keepalive_interval]: the fallback
    [*interval = keepalive_interval] reads the variable the line before has
    just written. *)
Definition janus_source_parse_keepalive_interval (item : option (option string))
    (keepalive_interval : Z) : Z :=
  match item_value item with
  | None => keepalive_interval
  | Some value =>
      let it := to_u32 (atoi value) in
      (* G_USEC_PER_SEC * it: unsigned int arithmetic, stored in *interval *)
      let keepalive_interval := to_u32 (G_USEC_PER_SEC * it) in
      if Z.eqb keepalive_interval 0 then keepalive_interval else keepalive_interval
  end.

(** [static void janus_source_parse_video_codec_priority(item)] *)
Definition janus_source_parse_video_codec_priority (item : option (option string))
    (use_codec_priority : bool) (codec_priority_list : list idilia_codec)
  : bool * list idilia_codec :=
  match item_value item with
  | Some value =>
      match strrchr_split ","%char value with
      | Some (codec1, codec2) =>
          (true, [sdp_codec_name_to_id (Some codec1); sdp_codec_name_to_id (Some codec2)])
      | None => (use_codec_priority, codec_priority_list)
      end
  | None => (false, codec_priority_list)
  end.

(** One category of the configuration loop of [janus_source_init]. *)
Definition janus_source_parse_category (cat : janus_config_category) (c : config_globals)
  : config_globals :=
  let get := janus_config_get_item (cat_items cat) in
  let '(mn, mx) := janus_source_parse_ports_range (get "udp_port_range")
                     (c_udp_min_port c) (c_udp_max_port c) in
  let ki := janus_source_parse_keepalive_interval (get "keepalive_interval")
              (c_keepalive_interval c) in
  let ka := match item_value (get "keepalive_service_url") with
            | Some v => Some v | None => c_keepalive_service_url c end in
  let st := match item_value (get "status_service_url") with
            | Some v => Some v | None => c_status_service_url c end in
  let '(use, lst) := janus_source_parse_video_codec_priority (get "video_codec_priority")
                       (c_use_codec_priority c) (c_codec_priority_list c) in
  let ip := match item_value (get "interface") with
            | Some v => Some v | None => Some "localhost" end in
  mk_config mn mx ki ka st use lst ip.

(** The configuration part of [janus_source_init]: the categories of the
    parsed file ([None] when [janus_config_parse] fails), those without a
    name skipped, then the default port range. *)
Definition janus_source_init_config (config : option (list janus_config_category))
    (c : config_globals) : config_globals :=
  let c1 :=
    match config with
    | None => c
    | Some cats =>
        fold_left (fun acc cat =>
                     match cat_name cat with
                     | None => acc
                     | Some _ => janus_source_parse_category cat acc
                     end) cats c
    end in
  if (Z.leb (c_udp_min_port c1) 0 || Z.leb (c_udp_max_port c1) 0)%bool then
    mk_config 4000 5000 (c_keepalive_interval c1) (c_keepalive_service_url c1)
      (c_status_service_url c1) (c_use_codec_priority c1) (c_codec_priority_list c1)
      (c_rtsp_interface_ip c1)
  else c1.

(* ------------------------------------------------------------------ *)
(** ** Further entry points of [idilia_source.c] *)

(** [static void janus_source_relay_rtcp(janus_source_session *session, int video, char *buf, int len)] *)
Definition janus_source_relay_rtcp (session : janus_source_session) (video : Z)
    (buf : list Z) : M unit :=
  let name := if negb (Z.eqb video 0) then "video_rtcp_rcv_cli" else "audio_rtcp_rcv_cli" in
  match s_sockets session with
  | Some tbl =>
      match table_lookup tbl name with
      | Some sck => emit (SocketSend (sck_port sck) buf)
      | None => (* "Unable to lookup for rtcp_rcv_cli" *) ret tt
      end
  | None => ret tt
  end.

(** [void janus_source_incoming_rtcp(janus_plugin_session *handle, int video, char *buf, int len)] *)
Definition janus_source_incoming_rtcp (g : globals) (handle_null : bool) (video : Z)
    (buf : list Z) : M unit :=
  blocked <- entry_blocked g handle_null ;;
  if blocked then ret tt
  else if negb (g_gateway g) then ret tt
  else
    (attached <- gets ps_attached ;;
     if negb attached then ret tt
     else
       (session <- get_session ;;
        if negb (Z.eqb (s_destroyed session) 0) then ret tt
        else janus_source_relay_rtcp session video buf)).

Definition put_attached (attached : bool) : M unit :=
  modify (fun s => mk_ps (ps_handle_stopped s) attached (ps_session s)
                     (ps_in_sessions s) (ps_old_sessions s) (ps_pool s)
                     (ps_callback_data s) (ps_json s) (ps_next s) (ps_trace s)).

(** [void janus_source_create_session(janus_plugin_session *handle, int *error)];
    the result is the value stored in [*error], if any.  The session is
    [g_malloc0]-ed: the fields not set explicitly ([slowlink_count],
    [sockets], [callback_data]) are 0 / NULL. *)
Definition janus_source_create_session (g : globals) : M (option Z) :=
  if (g_stopping g || negb (g_initialized g))%bool then ret (Some (-1))
  else
    (let session :=
       mk_session true true 0 0 0 0 None None None
         IDILIA_CODEC_INVALID IDILIA_CODEC_INVALID (-1) (-1) None None in
     put_session session ;;;
     put_attached true ;;;
     old <- gets ps_old_sessions ;;
     (* g_hash_table_insert(sessions, handle, session) *)
     put_sessions_map true old ;;;
     ret None).

(** Values of the object built by [janus_source_query_session]. *)
Inductive query_value :=
| QBool (b : bool)
| QInt (z : Z).

(** [json_t *janus_source_query_session(janus_plugin_session *handle)]; [None] is NULL. *)
Definition janus_source_query_session (g : globals)
  : M (option (list (string * query_value))) :=
  if (g_stopping g || negb (g_initialized g))%bool then ret None
  else
    (attached <- gets ps_attached ;;
     if negb attached then ret None
     else
       (session <- get_session ;;
        ret (Some [("audio_active", QBool (s_audio_active session));
                   ("video_active", QBool (s_video_active session));
                   ("bitrate", QInt (s_bitrate session));
                   ("slowlink_count", QInt (s_slowlink_count session));
                   ("destroyed", QInt (s_destroyed session))]))).

(** [void janus_source_setup_media(janus_plugin_session *handle)]; the result
    says whether a [QueueEventData] for [janus_rtsp_handle_client_callback]
    was pushed to the RTSP server queue. *)
Definition janus_source_setup_media (g : globals) : M bool :=
  if (g_stopping g || negb (g_initialized g))%bool then ret false
  else
    (attached <- gets ps_attached ;;
     if negb attached then ret false
     else
       (session <- get_session ;;
        if negb (Z.eqb (s_destroyed session) 0) then ret false
        else
          (put_session (set_hangingup session 0) ;;;
           ret true))).

(** Incoming JSON messages as jansson types them. *)
#[warnings="-register-all"]
Inductive msg_json :=
| MTrue
| MFalse
| MNull
| MInt (z : Z)
| MReal (r : Z)
| MStr (s : string)
| MArr (l : list msg_json)
| MObj (fs : list (string * msg_json)).

Fixpoint msg_get (fs : list (string * msg_json)) (key : string) : option msg_json :=
  match fs with
  | [] => None
  | (k, v) :: fs' => if String.eqb k key then Some v else msg_get fs' key
  end.

Definition json_is_boolean (j : msg_json) : bool :=
  match j with MTrue | MFalse => true | _ => false end.
Definition json_is_true (j : msg_json) : bool :=
  match j with MTrue => true | _ => false end.
Definition json_is_string (j : msg_json) : bool :=
  match j with MStr _ => true | _ => false end.

Definition JANUS_SOURCE_ERROR_NO_MESSAGE : Z := 411.
Definition JANUS_SOURCE_ERROR_INVALID_JSON : Z := 412.
Definition JANUS_SOURCE_ERROR_INVALID_ELEMENT : Z := 413.

(** The [error:] block of [janus_source_handler]. *)
Definition handler_error (error_code : Z) (error_cause : string) : M unit :=
  event <- json_object ;;
  json_object_set_new event "source" (JString "event") ;;;
  json_object_set_new event "error_code" (JInt error_code) ;;;
  json_object_set_new event "error" (JString error_cause) ;;;
  push_event event ;;;
  json_decref event.

(** The checks of [janus_source_handler] on an object message, in order:
    the first failing one ([goto error]), or [None]. *)
Definition handler_check (fs : list (string * msg_json)) : option (Z * string) :=
  let bad_bool k := match msg_get fs k with Some j => negb (json_is_boolean j) | None => false end in
  if bad_bool "audio" then
    Some (JANUS_SOURCE_ERROR_INVALID_ELEMENT, "Invalid value (audio should be a boolean)")
  else if bad_bool "video" then
    Some (JANUS_SOURCE_ERROR_INVALID_ELEMENT, "Invalid value (video should be a boolean)")
  else if match msg_get fs "bitrate" with
          | Some (MInt b) => Z.ltb b 0
          | Some _ => true
          | None => false end then
    Some (JANUS_SOURCE_ERROR_INVALID_ELEMENT,
          "Invalid value (bitrate should be a positive integer)")
  else if bad_bool "record" then
    Some (JANUS_SOURCE_ERROR_INVALID_ELEMENT, "Invalid value (record should be a boolean)")
  else if match msg_get fs "filename" with Some j => negb (json_is_string j) | None => false end then
    Some (JANUS_SOURCE_ERROR_INVALID_ELEMENT, "Invalid value (filename should be a string)")
  else if match msg_get fs "id" with Some j => negb (json_is_string j) | None => false end then
    Some (JANUS_SOURCE_ERROR_INVALID_ELEMENT, "Invalid value (id should be positive string)")
  else None.

(** The [Enforce request] blocks of [janus_source_handler]. *)
Definition handler_enforce_audio (audio : option msg_json) : M unit :=
  match audio with
  | Some a =>
      session <- get_session ;;
      put_session (set_active session (json_is_true a) (s_video_active session) (s_bitrate session))
  | None => ret tt
  end.

Definition handler_enforce_video (video : option msg_json) : M unit :=
  match video with
  | Some v =>
      session <- get_session ;;
      (if (negb (s_video_active session) && json_is_true v)%bool
       then (* Send a PLI *) emit (RelayRtcp 1 RtcpPli) else ret tt) ;;;
      put_session (set_active session (s_audio_active session) (json_is_true v)
                     (s_bitrate session))
  | None => ret tt
  end.

Definition handler_enforce_bitrate (bitrate : option msg_json) : M unit :=
  match bitrate with
  | Some b =>
      session <- get_session ;;
      let br := match b with MInt z => z | _ => 0 end in
      put_session (set_active session (s_audio_active session) (s_video_active session) br) ;;;
      if Z.ltb 0 br then emit (RelayRtcp 1 (RtcpRemb br)) else ret tt
  | None => ret tt
  end.

Definition handler_enforce_id (id : option msg_json) : M unit :=
  match id with
  | Some (MStr i) =>
      session <- get_session ;;
      put_session (set_strings session (s_db_entry_session_id session) (s_rtsp_url session)
                     (Some i))
  | _ => ret tt
  end.

(** The [ok] event pushed when [msg_sdp] is NULL. *)
Definition handler_ok : M unit :=
  event <- json_object ;;
  json_object_set_new event "source" (JString "event") ;;;
  json_object_set_new event "result" (JString "ok") ;;;
  push_event event ;;;
  json_decref event.

(** One message of the loop of [janus_source_handler] for [msg->handle],
    with [msg->jsep] NULL (so [msg_sdp] is NULL). *)
Definition janus_source_handle_message_nojsep (handle_null : bool)
    (message : option msg_json) : M unit :=
  in_map <- gets ps_in_sessions ;;
  attached <- gets ps_attached ;;
  if handle_null then ret tt
  else if negb (in_map && attached)%bool then (* "No session associated" *) ret tt
  else
    (session0 <- get_session ;;
     if negb (Z.eqb (s_destroyed session0) 0) then ret tt
     else
       match message with
       | None => handler_error JANUS_SOURCE_ERROR_NO_MESSAGE "No message??"
       | Some (MObj fs) =>
           match handler_check fs with
           | Some (code, cause) => handler_error code cause
           | None =>
               let audio := msg_get fs "audio" in
               let video := msg_get fs "video" in
               let bitrate := msg_get fs "bitrate" in
               let record := msg_get fs "record" in
               let id := msg_get fs "id" in
               handler_enforce_audio audio ;;;
               handler_enforce_video video ;;;
               handler_enforce_bitrate bitrate ;;;
               handler_enforce_id id ;;;
               match audio, video, bitrate, record, id with
               | None, None, None, None, None =>
                   handler_error JANUS_SOURCE_ERROR_INVALID_ELEMENT
                     "Message error: no supported attributes (audio, video, bitrate, record, id, jsep) found"
               | _, _, _, _, _ => handler_ok
               end
           end
       | Some _ => handler_error JANUS_SOURCE_ERROR_INVALID_JSON "JSON error: not an object"
       end).

(* ================================================================== *)
(** * Properties *)

(** The [video_rtp_cli] / [audio_rtp_cli] client socket a packet goes to. *)
Definition rtp_cli_name (video : Z) : string :=
  if Z.eqb video 0 then "audio_rtp_cli" else "video_rtp_cli".

(** The active flag of the packet's kind. *)
Definition kind_active (ss : janus_source_session) (video : Z) : bool :=
  if Z.eqb video 0 then s_audio_active ss else s_video_active ss.

(** ** Concrete configurations *)

Definition cfg_globals : globals :=
  mk_globals false true true true "http://registry/streams" "http://registry/keepalive" "4242".

Definition cfg_session : janus_source_session :=
  mk_session true true 0 0 0 0 None None (Some "cam1") IDILIA_CODEC_VP8
    IDILIA_CODEC_OPUS 100 111 None None.

Definition cfg_cli_sockets : list (string * janus_source_socket) :=
  [("video_rtp_cli", mk_sock 4000 true true false);
   ("video_rtcp_snd_srv", mk_sock 4001 true false false)].

Definition cfg_srv_sockets : list (string * janus_source_socket) :=
  [("video_rtp_srv", mk_sock 4000 true false false)].

Definition cfg_state (ss : janus_source_session) (pp : ports_pool) : plugin_state :=
  mk_ps false true ss true 0 pp [] [] 0 [].

Definition cfg_pool : ports_pool := mk_pool 4000 5000 [4000; 4001; 4002] 3.

(** A session whose stream is being published: the registry answered the
    POST with code 0. *)
Definition cfg_published : plugin_state :=
  snd (janus_rtsp_handle_client_callback cfg_globals "10.0.0.1" 554
         cfg_srv_sockets cfg_cli_sockets
         (Some (JObject [("code", JInt 0); ("_id", JString "abc")]))
         (cfg_state cfg_session cfg_pool)).

(** The offer used for the SDP properties. *)
Definition crlf : string := String cr (String nl EmptyString).

Definition cfg_sdp : string :=
  "v=0" ++ crlf
  ++ "m=audio 9 UDP/TLS/RTP/SAVPF 111 103" ++ crlf
  ++ "a=rtpmap:111 opus/48000/2" ++ crlf
  ++ "m=video 9 UDP/TLS/RTP/SAVPF 100 96 107" ++ crlf
  ++ "a=rtpmap:100 VP8/90000" ++ crlf
  ++ "a=rtpmap:96 VP9/90000" ++ crlf
  ++ "a=rtpmap:107 H264/90000" ++ crlf.

(** An offer with a plain RTP/AVP video line and an [a=rtpmap:-1] line. *)
Definition cfg_sdp_avp : string :=
  "m=video 9 RTP/AVP 96" ++ crlf ++ "a=rtpmap:-1 VP8/90000" ++ crlf.

(** The bitrate [slow_link] sets on a video event. *)
Definition halved_bitrate (b : Z) : Z :=
  let b1 := if Z.ltb 0 b then b else 512 * 1024 in
  let b2 := b1 / 2 in
  if Z.ltb b2 (64 * 1024) then 64 * 1024 else b2.

(** [all_cls cls s]: every character of [s] is in [cls]. *)
Fixpoint all_cls (cls : ascii -> bool) (s : string) : bool :=
  match s with
  | EmptyString => true
  | String c s' => (cls c && all_cls cls s')%bool
  end.

(** A non-empty run of characters of [cls]. *)
Definition nonempty_run (cls : ascii -> bool) (s : string) : bool :=
  match s with
  | EmptyString => false
  | String _ _ => all_cls cls s
  end.

(** The strings matched by a pattern of [rtok]s. *)
Fixpoint in_lang (ts : list rtok) (x : string) : Prop :=
  match ts with
  | [] => x = EmptyString
  | RChar c :: ts' => exists x', x = String c x' /\ in_lang ts' x'
  | RPlus cls :: ts' =>
      exists y z, x = y ++ z /\ nonempty_run cls y = true /\ in_lang ts' z
  end.

(** The video line [sdp_set_video_codec] writes. *)
Definition new_video_line (port_video desired_codec_pt codec1 : Z) : string :=
  "m=video " ++ printf_d port_video ++ " " ++ savpf ++ " "
  ++ printf_d desired_codec_pt ++ " " ++ printf_d codec1.

(** No character of [cls] starts [b]. *)
Definition head_not (cls : ascii -> bool) (b : string) : Prop :=
  forall c r, b = String c r -> cls c = false.

(** A session with the video and audio [rtcp_snd_srv] sockets in place. *)
Definition cfg_avp_session : janus_source_session :=
  set_sockets cfg_session
    (Some [("video_rtcp_snd_srv", mk_sock 5000 true false false);
           ("audio_rtcp_snd_srv", mk_sock 5002 true false false)]) None.

(** An offer without a SAVPF line whose [rtpmap] carries payload type 96. *)
Definition cfg_sdp_avp_96 : string :=
  "m=video 9 RTP/AVP 96" ++ crlf ++ "a=rtpmap:96 VP8/90000" ++ crlf.

(** The pool's bookkeeping is consistent: the allocated list has no
    duplicates and [count] is its length. *)
Definition pool_ok (pp : ports_pool) : Prop :=
  NoDup (pp_list pp) /\ pp_count pp = Z.of_nat (List.length (pp_list pp)).

(** What the configuration loop keeps: an ordered 16-bit port range and a
    codec priority list of two entries. *)
Definition config_inv (c : config_globals) : Prop :=
  0 <= c_udp_min_port c <= c_udp_max_port c /\ c_udp_max_port c < 65536 /\
  List.length (c_codec_priority_list c) = 2%nat.

(** A live session whose video is switched off and which has its
    [video_rtcp_rcv_cli] socket. *)
Definition cfg_rtcp_state : plugin_state :=
  cfg_state (set_sockets (set_active cfg_session true false 0)
               (Some [("video_rtcp_rcv_cli", mk_sock 4003 true true false)]) None)
    cfg_pool.

Definition sdp_rtpmap_vp8 : string := "a=rtpmap:96 VP8/90000".

Definition sdp_media_video : string := "m=video 9 UDP/TLS/RTP/SAVPF 96 97".

(** ** Helper lemmas *)

Lemma g_list_find_In (l : list Z) (p : Z) : g_list_find l p = true <-> In p l.
Proof.
  unfold g_list_find. rewrite existsb_exists. split.
  - intros [x [Hx Heq]]. apply Z.eqb_eq in Heq. subst. exact Hx.
  - intros H. exists p. split; [exact H | apply Z.eqb_refl].
Qed.

Lemma g_list_remove_not_In (l : list Z) (p : Z) : ~ In p l -> g_list_remove l p = l.
Proof.
  induction l as [|x l IH]; simpl; intros H; [reflexivity|].
  destruct (Z.eqb_spec x p) as [E|E].
  - subst. exfalso. apply H. left; reflexivity.
  - rewrite IH; [reflexivity|]. intros Hin. apply H. right; exact Hin.
Qed.

Lemma g_list_remove_append_new (l : list Z) (p : Z) :
  ~ In p l -> g_list_remove (g_list_append l p) p = l.
Proof.
  unfold g_list_append. induction l as [|x l IH]; simpl; intros H.
  - rewrite Z.eqb_refl. reflexivity.
  - destruct (Z.eqb_spec x p) as [E|E].
    + subst. exfalso. apply H. left; reflexivity.
    + rewrite IH; [reflexivity|]. intros Hin. apply H. right; exact Hin.
Qed.

(** The draw loop only returns values of the oracle that are not in [l]. *)
Lemma random_free_port_spec rnd l i fuel p i' :
  random_free_port rnd l i fuel = Some (p, i') ->
  (exists k, p = rnd k) /\ ~ In p l.
Proof.
  revert i. induction fuel as [|f IH]; simpl; intros i H; [discriminate|].
  destruct (g_list_find l (rnd i)) eqn:E.
  - exact (IH _ H).
  - inversion H; subst. split; [exists i; reflexivity|].
    intros Hin. apply g_list_find_In in Hin. congruence.
Qed.

(** ** C1: [incoming_rtp] *)

(** C1 (counterexample): a session that is hanging up but not destroyed
    still relays a video packet on [video_rtp_cli]. *)
Lemma incoming_rtp_relays_while_hangingup :
  let st := cfg_state (set_sockets (set_hangingup cfg_session 1) (Some cfg_cli_sockets) None)
              cfg_pool in
  s_hangingup (ps_session st) = 1 /\
  ps_trace (snd (janus_source_incoming_rtp cfg_globals false 1 [128; 96] st))
  = [SocketSend 4000 [128; 96]].
Proof. split; reflexivity. Qed.

(** C1 (amended): [incoming_rtp] drops the packet (the state is unchanged)
    when the handle is NULL or stopped, the plugin is stopping or not
    initialised, there is no gateway, no session, or the session is
    destroyed; otherwise it drops it when the active flag of its kind is
    false, and when the flag is true it sends the bytes on the session's
    [video_rtp_cli] / [audio_rtp_cli] socket if the table has it.  The
    hanging-up flag plays no part. *)
Theorem janus_source_incoming_rtp_spec (g : globals) (handle_null : bool) (video : Z)
    (buf : list Z) (st : plugin_state) :
  let ss := ps_session st in
  (((handle_null || ps_handle_stopped st || g_stopping g || negb (g_initialized g))%bool = true
    \/ g_gateway g = false \/ ps_attached st = false \/ s_destroyed ss <> 0) ->
   janus_source_incoming_rtp g handle_null video buf st = (tt, st)) /\
  ((handle_null || ps_handle_stopped st || g_stopping g || negb (g_initialized g))%bool = false ->
   g_gateway g = true -> ps_attached st = true -> s_destroyed ss = 0 ->
   (kind_active ss video = false ->
    janus_source_incoming_rtp g handle_null video buf st = (tt, st)) /\
   (kind_active ss video = true ->
    (forall tbl sck, s_sockets ss = Some tbl -> table_lookup tbl (rtp_cli_name video) = Some sck ->
     janus_source_incoming_rtp g handle_null video buf st
     = emit (SocketSend (sck_port sck) buf) st) /\
    (forall tbl, s_sockets ss = Some tbl -> table_lookup tbl (rtp_cli_name video) = None ->
     janus_source_incoming_rtp g handle_null video buf st = (tt, st)))).
Proof.
  intros ss. unfold janus_source_incoming_rtp, entry_blocked, get_session, bind, gets, ret.
  split.
  - intros [H | [H | [H | H]]].
    + rewrite H. reflexivity.
    + destruct (_ || _)%bool; [reflexivity|]. rewrite H. reflexivity.
    + destruct (_ || _)%bool; [reflexivity|]. destruct (g_gateway g); [|reflexivity].
      simpl. rewrite H. reflexivity.
    + destruct (_ || _)%bool; [reflexivity|]. destruct (g_gateway g); [|reflexivity].
      simpl. destruct (ps_attached st); [|reflexivity]. simpl.
      fold ss. apply Z.eqb_neq in H. rewrite H. reflexivity.
  - intros Hb Hg Ha Hd. simpl. rewrite Hb, Hg. simpl. rewrite Ha. simpl. fold ss.
    rewrite (proj2 (Z.eqb_eq _ _) Hd). simpl.
    unfold kind_active, rtp_cli_name, janus_source_relay_rtp.
    destruct (Z.eqb_spec video 0) as [E|E]; simpl.
    + split; intros Hk; [rewrite Hk; reflexivity|]. rewrite Hk. split.
      * intros tbl sck Hs Hl. rewrite Hs, Hl. reflexivity.
      * intros tbl Hs Hl. rewrite Hs, Hl. reflexivity.
    + split; intros Hk; [rewrite Hk; reflexivity|]. rewrite Hk. split.
      * intros tbl sck Hs Hl. rewrite Hs, Hl. reflexivity.
      * intros tbl Hs Hl. rewrite Hs, Hl. reflexivity.
Qed.

(** C1 witness: the send case at a hanging-up session. *)
Lemma janus_source_incoming_rtp_spec_witness :
  let st := cfg_state (set_sockets (set_hangingup cfg_session 1) (Some cfg_cli_sockets) None)
              cfg_pool in
  janus_source_incoming_rtp cfg_globals false 1 [128; 96] st
  = emit (SocketSend 4000 [128; 96]) st.
Proof.
  intros st.
  destruct (janus_source_incoming_rtp_spec cfg_globals false 1 [128; 96] st) as [_ H].
  destruct (H eq_refl eq_refl eq_refl eq_refl) as [_ H1].
  destruct (H1 eq_refl) as [H2 _].
  exact (H2 cfg_cli_sockets (mk_sock 4000 true true false) eq_refl eq_refl).
Defined.

(** ** C2: [ports_pool_get] *)

(** C2 (counterexample): on the pool [4000..4001] with 4000 allocated, a
    request for the free port 4001 gets 0 because [count >= max - min]
    already holds; on the pool [4000..5000] with 4001 allocated, a request
    for 4001 gets 0 rather than another free port. *)
Lemma ports_pool_get_refuses_free_and_taken :
  ~ In 4001 [4000] /\
  ports_pool_get 10 (fun _ => 4000) 0 (mk_pool 4000 4001 [4000] 1) 4001
  = Some (mk_pool 4000 4001 [4000] 1, 0, 0%nat) /\
  ports_pool_get 10 (fun _ => 4500) 0 (mk_pool 4000 5000 [4001] 1) 4001
  = Some (mk_pool 4000 5000 [4001] 1, 0, 0%nat).
Proof.
  split; [simpl; intros [H|H]; [discriminate|exact H]|].
  split; reflexivity.
Qed.

(** A draw outside [min, max] takes a random port not in the list. *)
Lemma ports_pool_get_random (fuel : nat) (rnd : nat -> Z) (i : nat)
    (pp : ports_pool) (port : Z) :
  pp_count pp < pp_max pp - pp_min pp -> ~ (pp_min pp <= port <= pp_max pp) ->
  0 < pp_min pp -> (forall k, pp_min pp <= rnd k < pp_max pp) ->
  forall pp' p i', ports_pool_get fuel rnd i pp port = Some (pp', p, i') ->
  pp_min pp <= p < pp_max pp /\ ~ In p (pp_list pp) /\
  pp' = mk_pool (pp_min pp) (pp_max pp) (pp_list pp ++ [p]) (pp_count pp + 1).
Proof.
  unfold ports_pool_get, g_list_append.
  intros Hc Hr Hmin Hrnd pp' p i' H.
  rewrite (proj2 (Z.leb_gt _ _) Hc) in H.
  assert (Hr' : (Z.leb (pp_min pp) port && Z.leb port (pp_max pp))%bool = false).
  { destruct (Z.leb_spec (pp_min pp) port), (Z.leb_spec port (pp_max pp)); simpl;
      try reflexivity; exfalso; apply Hr; lia. }
  rewrite Hr' in H.
  destruct (random_free_port rnd (pp_list pp) i fuel) as [[q j]|] eqn:R; [|discriminate].
  destruct (random_free_port_spec _ _ _ _ _ _ R) as [[k Hk] Hq].
  specialize (Hrnd k). rewrite <- Hk in Hrnd.
  rewrite (proj2 (Z.ltb_lt 0 q) ltac:(lia)) in H. inversion H; subst.
  split; [exact Hrnd|]. split; [exact Hq | reflexivity].
Qed.

(** C2 (amended): [ports_pool_get] returns 0 and leaves the pool unchanged
    when [count >= max - min]; otherwise a requested port inside [min, max]
    is allocated and returned when it is not in the list, and a requested
    port already in the list yields 0 with the pool unchanged; any other
    request (e.g. 0) draws [g_random_int_range(min, max)] until it hits a port
    not in the list, which is in [min, max), appended and counted. *)
Theorem ports_pool_get_spec (fuel : nat) (rnd : nat -> Z) (i : nat)
    (pp : ports_pool) (port : Z) :
  (pp_max pp - pp_min pp <= pp_count pp ->
   ports_pool_get fuel rnd i pp port = Some (pp, 0, i)) /\
  (pp_count pp < pp_max pp - pp_min pp ->
   pp_min pp <= port <= pp_max pp -> 0 < port -> ~ In port (pp_list pp) ->
   ports_pool_get fuel rnd i pp port
   = Some (mk_pool (pp_min pp) (pp_max pp) (pp_list pp ++ [port]) (pp_count pp + 1), port, i)) /\
  (pp_count pp < pp_max pp - pp_min pp ->
   pp_min pp <= port <= pp_max pp -> In port (pp_list pp) ->
   ports_pool_get fuel rnd i pp port = Some (pp, 0, i)) /\
  (pp_count pp < pp_max pp - pp_min pp -> ~ (pp_min pp <= port <= pp_max pp) ->
   0 < pp_min pp -> (forall k, pp_min pp <= rnd k < pp_max pp) ->
   forall pp' p i', ports_pool_get fuel rnd i pp port = Some (pp', p, i') ->
   pp_min pp <= p < pp_max pp /\ ~ In p (pp_list pp) /\
   pp' = mk_pool (pp_min pp) (pp_max pp) (pp_list pp ++ [p]) (pp_count pp + 1)).
Proof.
  unfold ports_pool_get, g_list_append.
  split; [intros H; apply Z.leb_le in H; rewrite H; reflexivity|].
  split.
  { intros Hc Hr Hp Hn.
    rewrite (proj2 (Z.leb_gt _ _) Hc).
    rewrite (proj2 (Z.leb_le _ _) (proj1 Hr)), (proj2 (Z.leb_le _ _) (proj2 Hr)). simpl.
    destruct (g_list_find (pp_list pp) port) eqn:F.
    - apply g_list_find_In in F. contradiction.
    - rewrite (proj2 (Z.ltb_lt _ _) Hp). reflexivity. }
  split.
  { intros Hc Hr Hin.
    rewrite (proj2 (Z.leb_gt _ _) Hc).
    rewrite (proj2 (Z.leb_le _ _) (proj1 Hr)), (proj2 (Z.leb_le _ _) (proj2 Hr)). simpl.
    apply g_list_find_In in Hin. rewrite Hin. reflexivity. }
  exact (ports_pool_get_random fuel rnd i pp port).
Qed.

(** C2 witness: a free requested port, and a random draw. *)
Lemma ports_pool_get_spec_witness :
  ports_pool_get 10 (fun _ => 4500) 0 (mk_pool 4000 5000 [4001] 1) 4002
  = Some (mk_pool 4000 5000 ([4001] ++ [4002]) 2, 4002, 0%nat) /\
  (4000 <= 4500 < 5000 /\ ~ In 4500 [4001] /\
   mk_pool 4000 5000 [4001; 4500] 2 = mk_pool 4000 5000 ([4001] ++ [4500]) (1 + 1)).
Proof.
  split.
  - destruct (ports_pool_get_spec 10 (fun _ => 4500) 0 (mk_pool 4000 5000 [4001] 1) 4002)
      as [_ [H _]].
    apply H; simpl; [lia | lia | lia | intros [E|E]; [discriminate|exact E]].
  - destruct (ports_pool_get_spec 10 (fun _ => 4500) 0 (mk_pool 4000 5000 [4001] 1) 0)
      as [_ [_ [_ H]]].
    apply (H ltac:(simpl; lia) ltac:(simpl; lia) ltac:(simpl; lia)
             ltac:(simpl; intros; lia) (mk_pool 4000 5000 [4001; 4500] 2) 4500 1%nat).
    vm_compute. reflexivity.
Defined.

(** ** C3: [ports_pool_return] *)

(** C3: returning a port that is not allocated leaves the list unchanged but
    still decrements [count]; so when a session is destroyed, the port of a
    client socket, which is the port of the server socket it is connected
    to, is returned twice: from the pool [4000; 4001; 4002] (count 3) of a
    published session holding 4000 (server and client) and 4001, the
    destroy leaves 4002 allocated with a count of 0. *)
Theorem ports_pool_return_unknown_port (pp : ports_pool) (port : Z) :
  (~ In port (pp_list pp) ->
   ports_pool_return pp port
   = mk_pool (pp_min pp) (pp_max pp) (pp_list pp) (pp_count pp - 1)) /\
  (ps_pool cfg_published = cfg_pool /\
   ps_pool (snd (janus_source_destroy_session cfg_globals 7 cfg_published))
   = mk_pool 4000 5000 [4002] 0).
Proof.
  split.
  - intros H. unfold ports_pool_return. rewrite g_list_remove_not_In by exact H.
    reflexivity.
  - split; vm_compute; reflexivity.
Qed.

(** C3 witness: the unallocated port 4001 of an empty pool. *)
Lemma ports_pool_return_unknown_port_witness :
  ports_pool_return (mk_pool 4000 5000 [] 0) 4001 = mk_pool 4000 5000 [] (0 - 1).
Proof.
  apply (proj1 (ports_pool_return_unknown_port (mk_pool 4000 5000 [] 0) 4001)).
  simpl. intros H; exact H.
Defined.

(** ** C4: [slow_link] *)

(** C4 (counterexample): a downlink video [slow_link] on a live session
    whose bitrate is 0 sets the bitrate to 262144 (512 * 1024 / 2), not
    256000. *)
Lemma slow_link_bitrate_not_256000 :
  s_bitrate (ps_session (snd (janus_source_slow_link cfg_globals false 0 1
                                 (cfg_state cfg_session cfg_pool)))) = 262144 /\
  262144 <> 256000.
Proof. split; [reflexivity | discriminate]. Qed.

(** C4 (amended): on a live session (handle usable, plugin running,
    session attached and not destroyed), a video [slow_link] that is not an
    uplink event for disabled video increments [slowlink_count] modulo 2^16,
    sets the bitrate to [halved_bitrate] of the old one (half of the old
    bitrate, or of 512 * 1024 when it was 0, never below 64 * 1024; 262144
    from 0), relays a REMB carrying that value and pushes the [slow_link]
    event with it. *)
Theorem janus_source_slow_link_video (g : globals) (handle_null : bool) (uplink : Z)
    (st : plugin_state) :
  (handle_null || ps_handle_stopped st || g_stopping g || negb (g_initialized g))%bool = false ->
  ps_attached st = true -> s_destroyed (ps_session st) = 0 ->
  (uplink = 0 \/ s_video_active (ps_session st) = true) ->
  let st' := snd (janus_source_slow_link g handle_null uplink 1 st) in
  let nb := halved_bitrate (s_bitrate (ps_session st)) in
  s_bitrate (ps_session st') = nb /\
  s_slowlink_count (ps_session st') = (s_slowlink_count (ps_session st) + 1) mod 65536 /\
  ps_trace st' = (ps_trace st ++
    [RelayRtcp 1 (RtcpRemb nb);
     PushEvent (Some (JObject [("source", JString "event");
                               ("result", JObject [("status", JString "slow_link");
                                                   ("bitrate", JInt nb)])]))])%list.
Proof.
  intros Hb Ha Hd Hu st' nb. subst st'.
  unfold janus_source_slow_link, json_object, json_object_set_new, push_event, json_decref,
    entry_blocked, get_session, put_session, put_json, emit, modify, bind, gets, ret.
  simpl. rewrite Hb. simpl. rewrite Ha. simpl. rewrite (proj2 (Z.eqb_eq _ _) Hd). simpl.
  assert (Hv : (negb (Z.eqb uplink 0) && negb (s_video_active (ps_session st)))%bool = false).
  { destruct Hu as [Hu|Hu]; [subst; reflexivity | rewrite Hu; apply Bool.andb_false_r]. }
  rewrite Bool.andb_true_r, Hv. rewrite Bool.andb_false_r. simpl.
  repeat progress (rewrite ?Nat.eqb_refl; simpl).
  split; [reflexivity|]. split; [reflexivity|].
  rewrite <- !app_assoc. reflexivity.
Qed.

(** C4 witness: bitrate 0 gives 262144. *)
Lemma janus_source_slow_link_video_witness :
  s_bitrate (ps_session (snd (janus_source_slow_link cfg_globals false 0 1
                                 (cfg_state cfg_session cfg_pool))))
  = halved_bitrate 0.
Proof.
  exact (proj1 (janus_source_slow_link_video cfg_globals false 0 (cfg_state cfg_session cfg_pool)
                  eq_refl eq_refl eq_refl (or_introl eq_refl))).
Defined.

(** ** C5: [sdp_set_video_codec] *)

(** String lemmas. *)
Lemma str_app_assoc (a b c : string) : (a ++ b) ++ c = a ++ (b ++ c).
Proof. induction a as [|x a IH]; simpl; [reflexivity | rewrite IH; reflexivity]. Qed.

Lemma str_app_nil_r (a : string) : a ++ EmptyString = a.
Proof. induction a as [|x a IH]; simpl; [reflexivity | rewrite IH; reflexivity]. Qed.

Lemma str_drop_app (a b : string) : str_drop (String.length a) (a ++ b) = b.
Proof. induction a as [|x a IH]; simpl; [destruct b; reflexivity | exact IH]. Qed.

Lemma str_take_app (a b : string) : str_take (String.length a) (a ++ b) = a.
Proof. induction a as [|x a IH]; simpl; [reflexivity | rewrite IH; reflexivity]. Qed.

Lemma str_take_drop (n : nat) (s : string) : str_take n s ++ str_drop n s = s.
Proof.
  revert s. induction n as [|n IH]; intros [|c s]; simpl; try reflexivity.
  rewrite IH. reflexivity.
Qed.

Lemma lit_prefix_app (l t : string) : lit_prefix l (l ++ t) = Some t.
Proof.
  induction l as [|c l IH]; simpl; [reflexivity|].
  unfold ascii_eqb. destruct (ascii_dec c c); [exact IH | contradiction].
Qed.

Lemma prefix_app (m t : string) : prefix m (m ++ t) = true.
Proof.
  induction m as [|c m IH]; simpl; [destruct t; reflexivity|].
  destruct (ascii_dec c c); [exact IH | contradiction].
Qed.

Lemma prefix_true (m t : string) : prefix m t = true -> exists t', t = m ++ t'.
Proof.
  revert t. induction m as [|c m IH]; intros t H.
  - exists t. reflexivity.
  - destruct t as [|d t]; simpl in H; [discriminate|].
    destruct (ascii_dec c d); [|discriminate]. subst d.
    destruct (IH t H) as [t' E]. exists t'. rewrite E. reflexivity.
Qed.


Lemma run_len_app (cls : ascii -> bool) (a b : string) :
  all_cls cls a = true -> head_not cls b -> run_len cls (a ++ b) = String.length a.
Proof.
  induction a as [|x a IH]; simpl; intros Ha Hb.
  - destruct b as [|c r]; simpl; [reflexivity|]. rewrite (Hb c r eq_refl). reflexivity.
  - apply andb_prop in Ha. destruct Ha as [Hx Ha]. rewrite Hx, IH; auto.
Qed.

Lemma run_len_ge (cls : ascii -> bool) (a b : string) :
  all_cls cls a = true -> (String.length a <= run_len cls (a ++ b))%nat.
Proof.
  induction a as [|x a IH]; simpl; intros Ha; [lia|].
  apply andb_prop in Ha. destruct Ha as [Hx Ha]. rewrite Hx. specialize (IH Ha). lia.
Qed.

Lemma ascii_eqb_cls (cls : ascii -> bool) (c d : ascii) :
  cls c = true -> cls d = false -> ascii_eqb c d = false.
Proof.
  intros Hc Hd. unfold ascii_eqb. destruct (ascii_dec c d); [subst; congruence | reflexivity].
Qed.

Lemma head_not_nonempty (cls1 cls2 : ascii -> bool) (y t : string) :
  (forall c, cls1 c = true -> cls2 c = false) ->
  nonempty_run cls1 y = true -> head_not cls2 (y ++ t).
Proof.
  intros Hcls Hy c r E. destruct y as [|x y]; simpl in Hy, E; [discriminate|].
  inversion E; subst. apply Hcls. apply andb_prop in Hy. apply Hy.
Qed.

Lemma digit_not_blank (c : ascii) : is_digit c = true -> is_blank c = false.
Proof.
  intros H. unfold is_blank, ascii_eqb.
  destruct (ascii_dec c " "); [subst; discriminate|].
  destruct (ascii_dec c tab); [subst; discriminate | reflexivity].
Qed.

Lemma blank_not_digit (c : ascii) : is_blank c = true -> is_digit c = false.
Proof.
  intros H. destruct (is_digit c) eqn:E; [|reflexivity].
  rewrite (digit_not_blank c E) in H. discriminate.
Qed.

Lemma digit_not_space (c : ascii) : is_digit c = true -> is_space c = false.
Proof.
  unfold is_digit, is_space. intros H. apply andb_prop in H. destruct H as [H1 H2].
  apply Nat.leb_le in H1, H2.
  destruct (Nat.eqb_spec (nat_of_ascii c) 32); [lia|].
  destruct (Nat.leb_spec 9 (nat_of_ascii c)); destruct (Nat.leb_spec (nat_of_ascii c) 13);
    simpl; try reflexivity; lia.
Qed.

(** Backtracking finds a match whenever one exists. *)
Lemma try_len_complete (rest : string -> option nat) (s : string) (k j : nat) :
  (1 <= j <= k)%nat -> rest (str_drop j s) <> None -> try_len rest s k <> None.
Proof.
  induction k as [|k IH]; cbn [try_len]; intros Hj Hr; [lia|].
  destruct (rest (str_drop (S k) s)) eqn:E; [congruence|].
  destruct (Nat.eq_dec j (S k)) as [->|Hne]; [contradiction|].
  apply IH; [lia | exact Hr].
Qed.

Lemma re_match_complete (ts : list rtok) (x rest : string) :
  in_lang ts x -> re_match ts (x ++ rest) <> None.
Proof.
  revert x rest. induction ts as [|t ts IH]; intros x rest Hx.
  - simpl. discriminate.
  - destruct t as [c|cls]; simpl in Hx |- *.
    + destruct Hx as [x' [-> Hx']]. simpl. unfold ascii_eqb.
      destruct (ascii_dec c c); [|contradiction].
      specialize (IH x' rest Hx'). destruct (re_match ts (x' ++ rest)); [discriminate|congruence].
    + destruct Hx as [y [z [-> [Hy Hz]]]].
      rewrite str_app_assoc.
      destruct y as [|c0 y]; [discriminate|].
      apply (try_len_complete _ _ _ (String.length (String c0 y))).
      * split; [simpl; lia|]. apply run_len_ge. exact Hy.
      * rewrite str_drop_app. apply IH. exact Hz.
Qed.

Lemma in_lang_app (ts1 ts2 : list rtok) (x1 x2 : string) :
  in_lang ts1 x1 -> in_lang ts2 x2 -> in_lang (ts1 ++ ts2) (x1 ++ x2).
Proof.
  revert x1. induction ts1 as [|t ts1 IH]; intros x1 H1 H2.
  - simpl in H1. subst. exact H2.
  - destruct t as [c|cls]; simpl in H1 |- *.
    + destruct H1 as [x' [-> H1]]. exists (x' ++ x2). split; [reflexivity|]. apply IH; assumption.
    + destruct H1 as [y [z [-> [Hy Hz]]]]. exists y, (z ++ x2).
      split; [apply str_app_assoc|]. split; [exact Hy|]. apply IH; assumption.
Qed.

Lemma in_lang_rlit (l : string) : in_lang (rlit l) l.
Proof.
  induction l as [|c l IH]; simpl; [reflexivity|]. exists l. split; [reflexivity | exact IH].
Qed.

Lemma in_lang_plus (cls : ascii -> bool) (y : string) :
  nonempty_run cls y = true -> in_lang [RPlus cls] y.
Proof.
  intros H. simpl. exists y, EmptyString. split; [symmetry; apply str_app_nil_r|].
  split; [exact H | reflexivity].
Qed.

(** [re_search] returns the leftmost match. *)
Lemma re_search_spec (ts : list rtok) (s a m b : string) :
  re_search ts s = Some (a, m, b) ->
  s = a ++ m ++ b /\
  (forall a' c, s = a' ++ c -> (String.length a' < String.length a)%nat -> re_match ts c = None).
Proof.
  revert a. induction s as [|c0 s IH]; intros a H; simpl in H.
  - destruct (re_match ts EmptyString) as [n|] eqn:E; [|discriminate].
    inversion H; subst. split; [destruct n; reflexivity|]. simpl. intros; lia.
  - destruct (re_match ts (String c0 s)) as [n|] eqn:E.
    + inversion H; subst. split; [symmetry; apply str_take_drop|]. simpl. intros; lia.
    + destruct (re_search ts s) as [[[a0 m0] b0]|] eqn:R; [|discriminate].
      inversion H; subst. destruct (IH a0 eq_refl) as [Hs Hl].
      split; [rewrite Hs; reflexivity|].
      intros a' c Hac Hlen. destruct a' as [|c1 a'].
      * simpl in Hac. rewrite <- Hac. exact E.
      * simpl in Hac, Hlen. inversion Hac; subst. apply (Hl a'); [assumption | lia].
Qed.

(** [strstr] finds the first occurrence. *)
Lemma strstr_first (s a m b : string) :
  s = a ++ m ++ b ->
  (forall a' c, s = a' ++ c -> (String.length a' < String.length a)%nat -> prefix m c = false) ->
  strstr s m = Some (a, m ++ b).
Proof.
  revert s. induction a as [|c0 a IH]; intros s Hs Hf.
  - simpl in Hs. subst. generalize (prefix_app m b).
    destruct (m ++ b) as [|x r]; simpl; intros P; rewrite P; reflexivity.
  - simpl in Hs. subst. cbn [strstr].
    rewrite (Hf EmptyString (String c0 (a ++ m ++ b)) eq_refl ltac:(simpl; lia)).
    rewrite (IH (a ++ m ++ b) eq_refl).
    + reflexivity.
    + intros a' c E Hl. apply (Hf (String c0 a')); [simpl; rewrite E; reflexivity | simpl; lia].
Qed.

(** The text of a match of a pattern occurs first where it matches. *)
Lemma strstr_of_re_search (ts : list rtok) (s a m b : string) :
  re_search ts s = Some (a, m, b) -> in_lang ts m -> strstr s m = Some (a, m ++ b).
Proof.
  intros H Hm. destruct (re_search_spec _ _ _ _ _ H) as [Hs Hl].
  apply strstr_first; [exact Hs|].
  intros a' c E Hlen. destruct (prefix m c) eqn:P; [|reflexivity].
  destruct (prefix_true _ _ P) as [t' ->].
  exfalso. apply (re_match_complete ts m t' Hm). exact (Hl a' _ E Hlen).
Qed.

Lemma nonempty_run_all (cls : ascii -> bool) (y : string) :
  nonempty_run cls y = true -> all_cls cls y = true.
Proof. destruct y; simpl; [discriminate | auto]. Qed.

(** [sscanf] directive by directive. *)
Lemma sscanf_lit (l t : string) (fmt : list sdir) :
  sscanf (SLit l :: fmt) (l ++ t) = sscanf fmt t.
Proof. cbn [sscanf]. rewrite lit_prefix_app. reflexivity. Qed.

Lemma sscanf_set (cls : ascii -> bool) (st : bool) (y t : string) (fmt : list sdir) :
  nonempty_run cls y = true -> head_not cls t ->
  sscanf (SSet cls st :: fmt) (y ++ t) = ((if st then [VStr y] else []) ++ sscanf fmt t)%list.
Proof.
  intros Hy Ht. cbn [sscanf].
  rewrite (run_len_app cls y t (nonempty_run_all _ _ Hy) Ht).
  assert (Hn : exists n, String.length y = S n) by (destruct y; [discriminate | eexists; reflexivity]).
  destruct Hn as [n Hn]. rewrite Hn. rewrite <- Hn, str_drop_app, str_take_app.
  destruct st; reflexivity.
Qed.

Lemma scan_int_digits (p t : string) :
  nonempty_run is_digit p = true -> head_not is_digit t ->
  scan_int (p ++ t) = Some (digits_value p, t).
Proof.
  intros Hp Ht. unfold scan_int.
  destruct p as [|c p']; [discriminate|].
  assert (Hc : is_digit c = true) by (simpl in Hp; apply andb_prop in Hp; apply Hp).
  cbn [String.append skip_while]. rewrite (digit_not_space c Hc).
  rewrite (ascii_eqb_cls is_digit c "-" Hc eq_refl), (ascii_eqb_cls is_digit c "+" Hc eq_refl).
  change (String c (p' ++ t)) with (String c p' ++ t).
  rewrite (run_len_app is_digit (String c p') t (nonempty_run_all _ _ Hp) Ht).
  cbn [String.length].
  change (S (String.length p')) with (String.length (String c p')).
  rewrite (str_drop_app (String c p') t), (str_take_app (String c p') t).
  rewrite Z.mul_1_l. reflexivity.
Qed.

Lemma sscanf_int (st : bool) (p t : string) (fmt : list sdir) :
  nonempty_run is_digit p = true -> head_not is_digit t ->
  sscanf (SInt st :: fmt) (p ++ t) = ((if st then [VInt (scanf_d p)] else []) ++ sscanf fmt t)%list.
Proof.
  intros Hp Ht. cbn [sscanf]. rewrite (scan_int_digits p t Hp Ht). destruct st; reflexivity.
Qed.

Lemma head_not_empty (cls : ascii -> bool) : head_not cls EmptyString.
Proof. intros c r E. discriminate. Qed.

Lemma head_not_savpf (t : string) : head_not is_blank (savpf ++ t).
Proof. intros c r E. inversion E. reflexivity. Qed.

Lemma blank_digit (c : ascii) : is_blank c = true -> is_digit c = false.
Proof. exact (blank_not_digit c). Qed.

(** The two-payload-type video line, parsed by the [sscanf] of
    [sdp_set_video_codec]. *)
Lemma sscanf_video_two_pts (w1 p w2 w3 a w4 b : string) :
  nonempty_run is_blank w1 = true -> nonempty_run is_digit p = true ->
  nonempty_run is_blank w2 = true -> nonempty_run is_blank w3 = true ->
  nonempty_run is_digit a = true -> nonempty_run is_blank w4 = true ->
  nonempty_run is_digit b = true ->
  sscanf [SLit "m=video"; SSet is_blank false; SInt true;
          SSet is_blank false; SLit savpf; SSet is_blank false;
          SInt true; SSet is_blank false; SInt true]
         ("m=video" ++ w1 ++ p ++ w2 ++ savpf ++ w3 ++ a ++ w4 ++ b)
  = [VInt (scanf_d p); VInt (scanf_d a); VInt (scanf_d b)].
Proof.
  intros H1 Hp H2 H3 Ha H4 Hb.
  rewrite sscanf_lit.
  rewrite sscanf_set by (exact H1 || exact (head_not_nonempty _ _ _ _ digit_not_blank Hp)).
  rewrite sscanf_int by (exact Hp || exact (head_not_nonempty _ _ _ _ blank_digit H2)).
  rewrite sscanf_set by (exact H2 || apply head_not_savpf).
  rewrite sscanf_lit.
  rewrite sscanf_set by (exact H3 || exact (head_not_nonempty _ _ _ _ digit_not_blank Ha)).
  rewrite sscanf_int by (exact Ha || exact (head_not_nonempty _ _ _ _ blank_digit H4)).
  rewrite <- (str_app_nil_r b) at 1.
  rewrite sscanf_set by (exact H4 || exact (head_not_nonempty _ _ _ _ digit_not_blank Hb)).
  rewrite sscanf_int by (exact Hb || apply head_not_empty).
  reflexivity.
Qed.

Lemma re_video_two_pts_split :
  re_video_two_pts =
  (rlit "m=video" ++ [RPlus is_blank] ++ [RPlus is_digit] ++ [RPlus is_blank] ++ rlit savpf
   ++ [RPlus is_blank] ++ [RPlus is_digit] ++ [RPlus is_blank] ++ [RPlus is_digit])%list.
Proof. reflexivity. Qed.

Lemma in_lang_video_two_pts (w1 p w2 w3 a w4 b : string) :
  nonempty_run is_blank w1 = true -> nonempty_run is_digit p = true ->
  nonempty_run is_blank w2 = true -> nonempty_run is_blank w3 = true ->
  nonempty_run is_digit a = true -> nonempty_run is_blank w4 = true ->
  nonempty_run is_digit b = true ->
  in_lang re_video_two_pts ("m=video" ++ w1 ++ p ++ w2 ++ savpf ++ w3 ++ a ++ w4 ++ b).
Proof.
  intros H1 Hp H2 H3 Ha H4 Hb. rewrite re_video_two_pts_split.
  apply in_lang_app; [apply in_lang_rlit|].
  apply in_lang_app; [apply in_lang_plus; exact H1|].
  apply in_lang_app; [apply in_lang_plus; exact Hp|].
  apply in_lang_app; [apply in_lang_plus; exact H2|].
  apply in_lang_app; [apply in_lang_rlit|].
  apply in_lang_app; [apply in_lang_plus; exact H3|].
  apply in_lang_app; [apply in_lang_plus; exact Ha|].
  apply in_lang_app; [apply in_lang_plus; exact H4|].
  apply in_lang_plus; exact Hb.
Qed.

(** C5 (counterexample): selecting H264 (payload type 107) on the video
    line [100 96 107] yields [107 96 107]: 100 is lost and 107 appears
    twice, instead of [107 100 96]. *)
Lemma sdp_set_video_codec_loses_pt :
  sdp_set_video_codec cfg_sdp IDILIA_CODEC_H264 =
  Some ("v=0" ++ crlf
        ++ "m=audio 9 UDP/TLS/RTP/SAVPF 111 103" ++ crlf
        ++ "a=rtpmap:111 opus/48000/2" ++ crlf
        ++ "m=video 9 UDP/TLS/RTP/SAVPF 107 96 107" ++ crlf
        ++ "a=rtpmap:100 VP8/90000" ++ crlf
        ++ "a=rtpmap:96 VP9/90000" ++ crlf
        ++ "a=rtpmap:107 H264/90000" ++ crlf).
Proof. vm_compute. reflexivity. Qed.

(** C5 (amended): [sdp_set_video_codec] returns the offer unchanged when
    the codec is INVALID, when its payload type equals the first payload
    type of the first [m=video ... UDP/TLS/RTP/SAVPF] line, or when no such
    line has two payload types.  Otherwise, for a codec with an
    [a=rtpmap] entry (payload type [d <> -1]), the first occurrence of the
    leftmost match [m=video<ws><port><ws>UDP/TLS/RTP/SAVPF<ws><a><ws><b>]
    is replaced by [m=video <port> UDP/TLS/RTP/SAVPF <d> <x>], where [x]
    is [b] when [b <> d] and [a] otherwise; the text after [b] (further
    payload types included) is kept.  [port], [a] and [b] are the [gint]s
    [%d] stores for the digit runs ([scanf_d]: wrapped to 32 bits from
    2^31 on). *)
Theorem sdp_set_video_codec_spec (sdp : string) (codec : idilia_codec) :
  (codec = IDILIA_CODEC_INVALID -> sdp_set_video_codec sdp codec = Some sdp) /\
  (sdp_get_codec_pt_for_type sdp "video" = sdp_get_codec_pt sdp codec ->
   sdp_set_video_codec sdp codec = Some sdp) /\
  (re_search re_video_two_pts sdp = None -> sdp_set_video_codec sdp codec = Some sdp) /\
  (forall pre post w1 p w2 w3 a w4 b,
   let d := sdp_get_codec_pt sdp codec in
   codec <> IDILIA_CODEC_INVALID -> d <> -1 ->
   sdp_get_codec_pt_for_type sdp "video" <> d ->
   re_search re_video_two_pts sdp
   = Some (pre, "m=video" ++ w1 ++ p ++ w2 ++ savpf ++ w3 ++ a ++ w4 ++ b, post) ->
   nonempty_run is_blank w1 = true -> nonempty_run is_digit p = true ->
   nonempty_run is_blank w2 = true -> nonempty_run is_blank w3 = true ->
   nonempty_run is_digit a = true -> nonempty_run is_blank w4 = true ->
   nonempty_run is_digit b = true ->
   sdp_set_video_codec sdp codec
   = Some (pre ++ new_video_line (scanf_d p) d
                   (if Z.eqb (scanf_d b) d then scanf_d a else scanf_d b)
               ++ post)).
Proof.
  unfold sdp_set_video_codec. split; [|split; [|split]].
  - intros ->. rewrite Bool.orb_true_r. reflexivity.
  - intros E. rewrite E, Z.eqb_refl. reflexivity.
  - intros E. destruct (_ || _)%bool; [reflexivity|]. rewrite E. reflexivity.
  - intros pre post w1 p w2 w3 a w4 b Hc Hd Hcur H H1 Hp H2 H3 Ha H4 Hb.
    set (d := sdp_get_codec_pt sdp codec) in *.
    rewrite (proj2 (Z.eqb_neq _ _) Hcur).
    replace (idilia_codec_eqb codec IDILIA_CODEC_INVALID) with false
      by (destruct codec; try reflexivity; contradiction).
    cbn [orb]. rewrite H.
    rewrite (sscanf_video_two_pts w1 p w2 w3 a w4 b H1 Hp H2 H3 Ha H4 Hb).
    unfold str_replace_once.
    rewrite (strstr_of_re_search _ _ _ _ _ H
               (in_lang_video_two_pts w1 p w2 w3 a w4 b H1 Hp H2 H3 Ha H4 Hb)).
    rewrite str_drop_app. unfold new_video_line.
    destruct (Z.eqb (scanf_d b) d); reflexivity.
Qed.

(** C5 witness: choosing VP9 on [cfg_sdp]. *)
Lemma sdp_set_video_codec_spec_witness :
  sdp_set_video_codec cfg_sdp IDILIA_CODEC_VP9 =
  Some (("v=0" ++ crlf ++ "m=audio 9 UDP/TLS/RTP/SAVPF 111 103" ++ crlf
         ++ "a=rtpmap:111 opus/48000/2" ++ crlf)
        ++ new_video_line 9 96 100
        ++ (" 107" ++ crlf ++ "a=rtpmap:100 VP8/90000" ++ crlf
            ++ "a=rtpmap:96 VP9/90000" ++ crlf ++ "a=rtpmap:107 H264/90000" ++ crlf)).
Proof.
  destruct (sdp_set_video_codec_spec cfg_sdp IDILIA_CODEC_VP9) as [_ [_ [_ H]]].
  exact (H ("v=0" ++ crlf ++ "m=audio 9 UDP/TLS/RTP/SAVPF 111 103" ++ crlf
            ++ "a=rtpmap:111 opus/48000/2" ++ crlf)
           (" 107" ++ crlf ++ "a=rtpmap:100 VP8/90000" ++ crlf
            ++ "a=rtpmap:96 VP9/90000" ++ crlf ++ "a=rtpmap:107 H264/90000" ++ crlf)
           " " "9" " " " " "100" " " "96"
           ltac:(discriminate) ltac:(vm_compute; discriminate) ltac:(vm_compute; discriminate)
           ltac:(vm_compute; reflexivity) eq_refl eq_refl eq_refl eq_refl eq_refl eq_refl eq_refl).
Defined.

(** ** C6: duplicate stream id *)

Lemma assoc_assoc_remove {A} (k : nat) (h : list (nat * A)) :
  assoc k (assoc_remove k h) = None.
Proof.
  unfold assoc_remove. induction h as [|[k' v] h IH]; simpl; [reflexivity|].
  destruct (Nat.eqb_spec k k') as [E|E]; simpl; [exact IH|].
  apply Nat.eqb_neq in E. rewrite E. exact IH.
Qed.

(** C6: [send_id_error] releases the event ([json_decref]) before handing it
    to [push_event], so on every live session the pushed pointer no longer
    designates a live object; and on a registry answer [{"code": 11000}] the
    client callback posts the registration, hangs up (the [done] event),
    pushes that dangling error event, adds no mountpoint and keeps the
    session in the sessions map. *)
Theorem janus_source_duplicate_id_pushes_freed_event (g : globals) (st : plugin_state) :
  (g_stopping g = false -> g_initialized g = true -> ps_attached st = true ->
   s_destroyed (ps_session st) = 0 ->
   ps_trace (snd (janus_source_send_id_error g st)) = (ps_trace st ++ [PushEvent None])%list) /\
  (let st' := snd (janus_rtsp_handle_client_callback cfg_globals "10.0.0.1" 554
                     cfg_srv_sockets cfg_cli_sockets
                     (Some (JObject [("code", JInt 11000)]))
                     (cfg_state cfg_session cfg_pool)) in
   ps_trace st' =
   [CurlRequest "http://registry/streams"
      (janus_source_create_json_request "rtsp://10.0.0.1:554/cam1") "POST";
    PushEvent (Some (JObject [("source", JString "event"); ("result", JString "done")]));
    PushEvent None] /\
   ps_in_sessions st' = true /\ s_hangingup (ps_session st') = 1).
Proof.
  split.
  - intros Hs Hi Ha Hd.
    unfold janus_source_send_id_error, json_object, json_object_set_new, push_event,
      json_decref, get_session, put_json, emit, modify, bind, gets, ret.
    rewrite Hs, Hi. simpl. rewrite Ha. simpl. rewrite (proj2 (Z.eqb_eq _ _) Hd). simpl.
    repeat progress (rewrite ?Nat.eqb_refl; simpl).
    rewrite assoc_assoc_remove.
    reflexivity.
  - vm_compute. split; [reflexivity|]. split; reflexivity.
Qed.

(** C6 witness: the live configured session. *)
Lemma janus_source_duplicate_id_pushes_freed_event_witness :
  ps_trace (snd (janus_source_send_id_error cfg_globals (cfg_state cfg_session cfg_pool)))
  = ([] ++ [PushEvent None])%list.
Proof.
  exact (proj1 (janus_source_duplicate_id_pushes_freed_event cfg_globals
                  (cfg_state cfg_session cfg_pool)) eq_refl eq_refl eq_refl eq_refl).
Defined.

(** ** C7: destroying a destroyed session *)

Lemma str_length_app (a b : string) :
  String.length (a ++ b) = (String.length a + String.length b)%nat.
Proof. induction a as [|c a IH]; simpl; [reflexivity | rewrite IH; reflexivity]. Qed.

(** C7: a second [destroy_session] on a published session that the first
    call destroyed issues the registry DELETE again, now for
    ["<status_url>/(null)"], and calls [remove_mountpoint] with the
    callback data the first call freed (never reset to NULL); the
    session, the sessions map and the pool are left as they were. *)
Theorem janus_source_destroy_session_twice :
  let st2 := snd (janus_source_destroy_session cfg_globals 7 cfg_published) in
  let st3 := snd (janus_source_destroy_session cfg_globals 8 st2) in
  s_destroyed (ps_session st2) = 7 /\ ps_in_sessions st2 = false /\
  ps_trace st3 = (ps_trace st2 ++
                  [CurlRequest "http://registry/streams/(null)" "{}" "DELETE";
                   RemoveMountpoint None false])%list /\
  ps_session st3 = ps_session st2 /\ ps_in_sessions st3 = ps_in_sessions st2 /\
  ps_old_sessions st3 = ps_old_sessions st2 /\ ps_pool st3 = ps_pool st2.
Proof. vm_compute. repeat split. Qed.

(** ** C8: unregistering the process at shutdown *)

(** C8: [remove_pid_from_registry] builds ["<keepalive_url>/<PID>"] but
    sends its DELETE to the bare keepalive URL, which is never that URL; at
    shutdown, after the keepalive thread is joined, this is the only
    request. *)
Theorem janus_source_remove_pid_deletes_bare_url (g : globals) (st : plugin_state) :
  ps_trace (snd (janus_source_remove_pid_from_registry g st))
  = (ps_trace st ++ [CurlRequest (g_keepalive_service_url g) "{}" "DELETE"])%list /\
  g_keepalive_service_url g <> g_keepalive_service_url g ++ "/" ++ g_PID g /\
  ps_trace (snd (janus_source_destroy cfg_globals (mk_threads true true true true)
                   cfg_published))
  = (ps_trace cfg_published ++
     [JoinThread "handler";
      CurlRequest "http://registry/streams/abc" "{}" "DELETE";
      RemoveMountpoint (Some "cam1") true;
      JoinThread "rtsp"; JoinThread "keepalive";
      CurlRequest "http://registry/keepalive" "{}" "DELETE";
      JoinThread "watchdog"])%list.
Proof.
  split; [reflexivity|]. split.
  - intros E. apply (f_equal String.length) in E.
    rewrite !str_length_app in E. simpl in E. lia.
  - vm_compute. reflexivity.
Qed.

(** ** C9: [socket_utils_create_socket] *)

(** A requested port 0 is outside [min, max] when [0 < min]: the pool draws. *)
Lemma zero_outside (pp : ports_pool) : 0 < pp_min pp -> ~ (pp_min pp <= 0 <= pp_max pp).
Proof. lia. Qed.

(** A server-side draw followed by a failed bind leaves the pool's list and
    count as they were. *)
Lemma return_after_draw (pp : ports_pool) (p : Z) :
  ~ In p (pp_list pp) ->
  ports_pool_return (mk_pool (pp_min pp) (pp_max pp) (pp_list pp ++ [p]) (pp_count pp + 1)) p
  = mk_pool (pp_min pp) (pp_max pp) (pp_list pp) (pp_count pp).
Proof.
  intros H. unfold ports_pool_return. simpl.
  rewrite (g_list_remove_append_new _ _ H : g_list_remove (pp_list pp ++ [p]) p = pp_list pp).
  f_equal. lia.
Qed.

(** The server loop: when it ends with a bound port, that port was drawn
    from [min, max), was free, and is now appended to the pool. *)
Lemma create_loop_server (fuel : nat) (rnd : nat -> Z) (bind_ok : nat -> bool) :
  forall result e p e',
  0 < pp_min (env_pool e) -> (forall k, pp_min (env_pool e) <= rnd k < pp_max (env_pool e)) ->
  create_loop fuel rnd bind_ok 0 result e = Some (true, p, e') -> p <> 0 ->
  pp_min (env_pool e) <= p < pp_max (env_pool e) /\ ~ In p (pp_list (env_pool e)) /\
  env_pool e' = mk_pool (pp_min (env_pool e)) (pp_max (env_pool e))
                  (pp_list (env_pool e) ++ [p]) (pp_count (env_pool e) + 1).
Proof.
  induction fuel as [|f IH]; intros result e p e' Hmin Hrnd H Hp; [discriminate|].
  cbn [create_loop] in H. rewrite Z.eqb_refl in H.
  destruct (ports_pool_get (S f) rnd (env_draw e) (env_pool e) 0) as [[[pp' q] d']|] eqn:G;
    [|discriminate].
  destruct (Z.leb_spec (pp_max (env_pool e) - pp_min (env_pool e)) (pp_count (env_pool e)))
    as [Hx|Hx].
  - unfold ports_pool_get in G. rewrite (proj2 (Z.leb_le _ _) Hx) in G. inversion G; subst.
    simpl in H. inversion H; subst. contradiction.
  - destruct (ports_pool_get_random _ _ _ _ _ Hx (zero_outside _ Hmin) Hmin Hrnd _ _ _ G)
      as [Hq [Hn Hpp]].
    destruct (Z.eqb_spec q 0) as [Hq0|Hq0]; [lia|]. simpl in H.
    destruct (bind_ok (env_attempt e)).
    + inversion H; subst. simpl. auto.
    + subst pp'. rewrite (return_after_draw _ _ Hn) in H.
      match type of H with
      | create_loop _ _ _ _ _ ?E = _ =>
          destruct (IH false E p e' ltac:(simpl; exact Hmin) ltac:(simpl; exact Hrnd) H Hp)
            as [A [B C]]; simpl in *; auto
      end.
Qed.

(** When every bind fails on a pool that is not exhausted, the server loop
    never ends. *)
Lemma create_loop_server_all_fail (fuel : nat) (rnd : nat -> Z) :
  forall result e,
  0 < pp_min (env_pool e) -> (forall k, pp_min (env_pool e) <= rnd k < pp_max (env_pool e)) ->
  pp_count (env_pool e) < pp_max (env_pool e) - pp_min (env_pool e) ->
  create_loop fuel rnd (fun _ => false) 0 result e = None.
Proof.
  induction fuel as [|f IH]; intros result e Hmin Hrnd Hc; [reflexivity|].
  cbn [create_loop]. rewrite Z.eqb_refl.
  destruct (ports_pool_get (S f) rnd (env_draw e) (env_pool e) 0) as [[[pp' q] d']|] eqn:G;
    [|reflexivity].
  destruct (ports_pool_get_random _ _ _ _ _ Hc (zero_outside _ Hmin) Hmin Hrnd _ _ _ G)
    as [Hq [Hn Hpp]].
  destruct (Z.eqb_spec q 0) as [Hq0|Hq0]; [lia|]. simpl.
  subst pp'. simpl. rewrite (return_after_draw _ _ Hn). apply IH; simpl; assumption.
Qed.

(** A client retries its requested port as long as connecting fails. *)
Lemma create_loop_client_all_fail (fuel : nat) (rnd : nat -> Z) (req_port : Z) :
  req_port <> 0 -> forall result e,
  create_loop fuel rnd (fun _ => false) req_port result e = None.
Proof.
  intros Hr. induction fuel as [|f IH]; intros result e; [reflexivity|].
  cbn [create_loop]. rewrite (proj2 (Z.eqb_neq _ _) Hr). rewrite (proj2 (Z.eqb_neq _ _) Hr).
  apply IH.
Qed.

(** C9 (counterexample): on the pool [4000..4002] with nothing allocated
    (capacity 2), when every bind fails the server socket creation has not
    returned after 1000 iterations of its retry loop (and, by
    [create_loop_server_all_fail], it never does). *)
Lemma create_server_socket_never_returns :
  pp_max (mk_pool 4000 4002 [] 0) - pp_min (mk_pool 4000 4002 [] 0) = 2 /\
  socket_utils_create_server_socket 1000 (fun k => 4000 + Z.of_nat (k mod 2))
    (fun _ => false) true (mk_env (mk_pool 4000 4002 [] 0) 0 0)
    (mk_sock 0 false false false) = None.
Proof.
  split; [reflexivity|].
  unfold socket_utils_create_server_socket, socket_utils_create_socket.
  cbn [negb].
  rewrite (create_loop_server_all_fail 1000 _ true (mk_env (mk_pool 4000 4002 [] 0) 0 0)).
  - reflexivity.
  - simpl; lia.
  - intros k. cbn [env_pool pp_min pp_max].
    pose proof (Nat.mod_upper_bound k 2 ltac:(lia)). lia.
  - simpl; lia.
Qed.

(** C9 (amended): [socket_utils_create_socket] retries without bound.  A
    server socket whose creation returns TRUE holds a port drawn from
    [min, max) that was not allocated before and is now appended to the
    pool with its count incremented; when every bind fails on a pool that
    is not exhausted, the server call never returns, and when every connect
    fails the client call never returns (it retries its requested port). *)
Theorem socket_utils_create_socket_spec (rnd : nat -> Z) (e : sock_env)
    (sck : janus_source_socket) :
  0 < pp_min (env_pool e) -> (forall k, pp_min (env_pool e) <= rnd k < pp_max (env_pool e)) ->
  (forall fuel bind_ok sck' e',
     socket_utils_create_server_socket fuel rnd bind_ok true e sck
       = Some (Returned true, sck', e') ->
     pp_min (env_pool e) <= sck_port sck' < pp_max (env_pool e) /\
     ~ In (sck_port sck') (pp_list (env_pool e)) /\
     env_pool e' = mk_pool (pp_min (env_pool e)) (pp_max (env_pool e))
                     (pp_list (env_pool e) ++ [sck_port sck'])
                     (pp_count (env_pool e) + 1)) /\
  (pp_count (env_pool e) < pp_max (env_pool e) - pp_min (env_pool e) ->
   forall fuel, socket_utils_create_server_socket fuel rnd (fun _ => false) true e sck = None) /\
  (forall fuel port_to_connect, port_to_connect <> 0 ->
   socket_utils_create_client_socket fuel rnd (fun _ => false) true e sck port_to_connect
     = None).
Proof.
  intros Hmin Hrnd. split; [|split].
  - intros fuel bind_ok sck' e' H.
    unfold socket_utils_create_server_socket, socket_utils_create_socket in H.
    cbn [negb] in H.
    destruct (create_loop fuel rnd bind_ok 0 true e) as [[[r q] e'']|] eqn:L;
      [|discriminate].
    destruct r; cbn [negb] in H.
    + destruct (Z.eqb_spec q 0) as [Hq|Hq]; [discriminate|].
      inversion H; subst; clear H. cbn [sck_port].
      exact (create_loop_server fuel rnd bind_ok true e q e' Hmin Hrnd L Hq).
    + destruct (socket_utils_close_socket e'' _); discriminate.
  - intros Hc fuel. unfold socket_utils_create_server_socket, socket_utils_create_socket.
    cbn [negb]. rewrite (create_loop_server_all_fail fuel rnd true e Hmin Hrnd Hc).
    reflexivity.
  - intros fuel port Hp. unfold socket_utils_create_client_socket, socket_utils_create_socket.
    cbn [negb]. rewrite (create_loop_client_all_fail fuel rnd port Hp true e).
    reflexivity.
Qed.

Lemma socket_utils_create_socket_spec_witness :
  0 < pp_min (env_pool (mk_env (mk_pool 4000 4002 [] 0) 0 0)) /\
  (forall k, pp_min (env_pool (mk_env (mk_pool 4000 4002 [] 0) 0 0))
             <= 4000 + Z.of_nat (k mod 2)
             < pp_max (env_pool (mk_env (mk_pool 4000 4002 [] 0) 0 0))) /\
  socket_utils_create_server_socket 5 (fun k => 4000 + Z.of_nat (k mod 2))
    (fun n => Nat.eqb n 1) true (mk_env (mk_pool 4000 4002 [] 0) 0 0)
    (mk_sock 0 false false false)
  = Some (Returned true, mk_sock 4001 true false false,
          mk_env (mk_pool 4000 4002 [4001] 1) 2 2) /\
  (4000 <= 4001 < 4002 /\ ~ In 4001 [] /\
   mk_pool 4000 4002 [4001] 1 = mk_pool 4000 4002 ([] ++ [4001]) (0 + 1)).
Proof.
  assert (Hr : forall k, pp_min (env_pool (mk_env (mk_pool 4000 4002 [] 0) 0 0))
             <= 4000 + Z.of_nat (k mod 2)
             < pp_max (env_pool (mk_env (mk_pool 4000 4002 [] 0) 0 0))).
  { intros k. cbn [env_pool pp_min pp_max].
    pose proof (Nat.mod_upper_bound k 2 ltac:(lia)). lia. }
  assert (Hs : socket_utils_create_server_socket 5 (fun k => 4000 + Z.of_nat (k mod 2))
    (fun n => Nat.eqb n 1) true (mk_env (mk_pool 4000 4002 [] 0) 0 0)
    (mk_sock 0 false false false)
  = Some (Returned true, mk_sock 4001 true false false,
          mk_env (mk_pool 4000 4002 [4001] 1) 2 2)) by (vm_compute; reflexivity).
  split; [simpl; lia|]. split; [exact Hr|]. split; [exact Hs|].
  exact (proj1 (socket_utils_create_socket_spec _ (mk_env (mk_pool 4000 4002 [] 0) 0 0)
                  (mk_sock 0 false false false) ltac:(simpl; lia) Hr) _ _ _ _ Hs).
Defined.

(** C10: without a SAVPF media line the payload type stays at the sentinel
    -1, yet [sdp_pt_to_codec_id] still looks it up: an offer with no
    [UDP/TLS/RTP/SAVPF] line but an [a=rtpmap:-1 VP8/90000] line yields VP8
    for both video and audio (payload type -1), and the launch pipeline gets a
    VP8 video branch.  With a regular [a=rtpmap:96] line instead, the result
    is INVALID. *)
Theorem sdp_get_video_codec_sentinel_pt :
  sdp_get_codec_pt_for_type cfg_sdp_avp "video" = -1 /\
  sdp_get_codec_pt_for_type cfg_sdp_avp "audio" = -1 /\
  sdp_get_video_codec cfg_sdp_avp = IDILIA_CODEC_VP8 /\
  sdp_get_audio_codec cfg_sdp_avp = IDILIA_CODEC_VP8 /\
  janus_source_do_codec_negotiation default_codec_priority_list cfg_avp_session cfg_sdp_avp
    = Some (cfg_sdp_avp,
            set_codecs cfg_avp_session IDILIA_CODEC_VP8 IDILIA_CODEC_VP8 (-1) (-1)) /\
  janus_source_create_launch_pipe
    (set_codecs cfg_avp_session IDILIA_CODEC_VP8 IDILIA_CODEC_VP8 (-1) (-1))
    = Some (LaunchTwo (Some (PipeVideoVP8 (-1) "audio_rtp_srv" "audio_rtcp_rcv_srv" 5002))
              None) /\
  sdp_get_video_codec cfg_sdp_avp_96 = IDILIA_CODEC_INVALID.
Proof.
  repeat split; vm_compute; reflexivity.
Qed.

(* ================================================================== *)
(** * Further properties of the code *)

(** ** Port pool *)

(** The two outcomes of [ports_pool_get]: the pool is left as it was and
    the result is not positive, or a positive port that was not allocated
    is appended and counted. *)
Lemma ports_pool_get_cases (fuel : nat) (rnd : nat -> Z) (i : nat)
    (pp : ports_pool) (port : Z) pp' p i' :
  ports_pool_get fuel rnd i pp port = Some (pp', p, i') ->
  (pp' = pp /\ p <= 0) \/
  (0 < p /\ ~ In p (pp_list pp) /\
   pp' = mk_pool (pp_min pp) (pp_max pp) (pp_list pp ++ [p]) (pp_count pp + 1)).
Proof.
  unfold ports_pool_get, g_list_append. intros H.
  destruct (Z.leb (pp_max pp - pp_min pp) (pp_count pp)).
  { inversion H; subst. left. split; [reflexivity | lia]. }
  destruct (Z.leb (pp_min pp) port && Z.leb port (pp_max pp))%bool.
  - destruct (g_list_find (pp_list pp) port) eqn:F.
    + cbn [Z.ltb Z.compare] in H. inversion H; subst. left. split; [reflexivity | lia].
    + destruct (Z.ltb_spec 0 port) as [Hp|Hp]; inversion H; subst.
      * right. split; [exact Hp|]. split; [|reflexivity].
        intros Hin. apply g_list_find_In in Hin. congruence.
      * left. split; [reflexivity | exact Hp].
  - destruct (random_free_port rnd (pp_list pp) i fuel) as [[q j]|] eqn:R; [|discriminate].
    destruct (random_free_port_spec _ _ _ _ _ _ R) as [_ Hq].
    destruct (Z.ltb_spec 0 q) as [Hp|Hp]; inversion H; subst.
    + right. split; [exact Hp|]. split; [exact Hq | reflexivity].
    + left. split; [reflexivity | exact Hp].
Qed.

Lemma NoDup_app_single (l : list Z) (p : Z) : NoDup l -> ~ In p l -> NoDup (l ++ [p]).
Proof.
  intros H Hp. apply NoDup_app; [exact H | constructor; [intros []| constructor] |].
  intros x Hx Hy. destruct Hy as [Hy|[]]. subst. contradiction.
Qed.

Lemma g_list_remove_In (l : list Z) (p : Z) :
  NoDup l -> In p l ->
  NoDup (g_list_remove l p) /\ List.length (g_list_remove l p) = pred (List.length l).
Proof.
  induction l as [|x l IH]; simpl; intros Hd Hin; [contradiction|].
  inversion Hd as [|? ? Hx Hl]; subst.
  destruct (Z.eqb_spec x p) as [E|E].
  - split; [exact Hl | reflexivity].
  - destruct Hin as [Hin|Hin]; [congruence|].
    destruct (IH Hl Hin) as [A B]. split.
    + constructor; [|exact A]. intros Hr. apply Hx.
      clear -Hr. induction l as [|y l IHl]; simpl in *; [contradiction|].
      destruct (Z.eqb y p); [right; exact Hr|].
      destruct Hr as [Hr|Hr]; [left; exact Hr | right; apply IHl; exact Hr].
    + simpl. rewrite B. destruct l; simpl in *; [contradiction | reflexivity].
Qed.

(** X1: [ports_pool_get] keeps the pool consistent (no duplicate port in
    the list, [count] equal to its length), and so does
    [ports_pool_return] of a port that is in the list. *)
Theorem ports_pool_ok_preserved (fuel : nat) (rnd : nat -> Z) (i : nat)
    (pp : ports_pool) (port : Z) :
  pool_ok pp ->
  (forall pp' p i', ports_pool_get fuel rnd i pp port = Some (pp', p, i') -> pool_ok pp') /\
  (In port (pp_list pp) -> pool_ok (ports_pool_return pp port)).
Proof.
  intros [Hd Hc]. split.
  - intros pp' p i' H.
    destruct (ports_pool_get_cases _ _ _ _ _ _ _ _ H) as [[E _]|[_ [Hn E]]]; subst;
      [split; assumption|].
    split; simpl.
    + apply NoDup_app_single; assumption.
    + rewrite length_app. simpl. lia.
  - intros Hin. destruct (g_list_remove_In _ _ Hd Hin) as [A B].
    split; [exact A|]. simpl. rewrite B.
    destruct (pp_list pp); simpl in *; [contradiction | lia].
Qed.

Lemma ports_pool_ok_preserved_witness :
  pool_ok (mk_pool 4000 5000 [4000] 1) /\
  ports_pool_get 10 (fun _ => 4500) 0 (mk_pool 4000 5000 [4000] 1) 0
  = Some (mk_pool 4000 5000 [4000; 4500] 2, 4500, 1%nat) /\
  pool_ok (mk_pool 4000 5000 [4000; 4500] 2) /\
  pool_ok (ports_pool_return (mk_pool 4000 5000 [4000] 1) 4000).
Proof.
  assert (H0 : pool_ok (mk_pool 4000 5000 [4000] 1)).
  { split; [constructor; [intros []| constructor] | reflexivity]. }
  assert (Hg : ports_pool_get 10 (fun _ => 4500) 0 (mk_pool 4000 5000 [4000] 1) 0
               = Some (mk_pool 4000 5000 [4000; 4500] 2, 4500, 1%nat)) by reflexivity.
  split; [exact H0|]. split; [exact Hg|]. split.
  - exact (proj1 (ports_pool_ok_preserved 10 (fun _ => 4500) 0 _ 0 H0) _ _ _ Hg).
  - exact (proj2 (ports_pool_ok_preserved 10 (fun _ => 4500) 0 _ 4000 H0)
             (or_introl eq_refl)).
Defined.

(** X2: when [ports_pool_get] hands out a positive port, returning that
    port with [ports_pool_return] restores the pool exactly. *)
Theorem ports_pool_get_return_roundtrip (fuel : nat) (rnd : nat -> Z) (i : nat)
    (pp : ports_pool) (port : Z) pp' p i' :
  ports_pool_get fuel rnd i pp port = Some (pp', p, i') -> 0 < p ->
  ports_pool_return pp' p = pp.
Proof.
  intros H Hp.
  destruct (ports_pool_get_cases _ _ _ _ _ _ _ _ H) as [[_ E]|[_ [Hn E]]]; [lia|].
  subst. unfold ports_pool_return. simpl.
  rewrite (g_list_remove_append_new _ _ Hn : g_list_remove (pp_list pp ++ [p]) p = pp_list pp).
  destruct pp as [a b l c]. simpl. f_equal. lia.
Qed.

Lemma ports_pool_get_return_roundtrip_witness :
  ports_pool_get 10 (fun _ => 4500) 0 (mk_pool 4000 5000 [4000] 1) 4200
  = Some (mk_pool 4000 5000 [4000; 4200] 2, 4200, 0%nat) /\ 0 < 4200 /\
  ports_pool_return (mk_pool 4000 5000 [4000; 4200] 2) 4200 = mk_pool 4000 5000 [4000] 1.
Proof.
  assert (Hg : ports_pool_get 10 (fun _ => 4500) 0 (mk_pool 4000 5000 [4000] 1) 4200
               = Some (mk_pool 4000 5000 [4000; 4200] 2, 4200, 0%nat)) by reflexivity.
  split; [exact Hg|]. split; [lia|].
  exact (ports_pool_get_return_roundtrip _ _ _ _ _ _ _ _ Hg ltac:(lia)).
Defined.

(** ** Socket factory *)

Lemma iter_ports_pool_return_swap (k : nat) (req : Z) (pp : ports_pool) :
  Nat.iter k (fun q => ports_pool_return q req) (ports_pool_return pp req)
  = ports_pool_return (Nat.iter k (fun q => ports_pool_return q req) pp) req.
Proof. induction k as [|k IH]; simpl; [reflexivity | rewrite IH; reflexivity]. Qed.

(** The client loop: it always ends on the requested port, after [k]
    failed connects each of which returned that port to the pool. *)
Lemma create_loop_client (fuel : nat) (rnd : nat -> Z) (bind_ok : nat -> bool) (req : Z) :
  req <> 0 -> forall result e r p e',
  create_loop fuel rnd bind_ok req result e = Some (r, p, e') ->
  r = true /\ p = req /\ env_draw e' = env_draw e /\
  exists k, env_attempt e' = (k + S (env_attempt e))%nat /\
            env_pool e' = Nat.iter k (fun q => ports_pool_return q req) (env_pool e).
Proof.
  intros Hr. induction fuel as [|f IH]; intros result e r p e' H; [discriminate|].
  cbn [create_loop] in H. rewrite (proj2 (Z.eqb_neq _ _) Hr) in H.
  rewrite (proj2 (Z.eqb_neq _ _) Hr) in H.
  destruct (bind_ok (env_attempt e)).
  - inversion H; subst. split; [reflexivity|]. split; [reflexivity|].
    split; [reflexivity|]. exists O. split; reflexivity.
  - destruct (IH _ _ _ _ _ H) as [A [B [C [k [D E]]]]]. simpl in C, D, E.
    split; [exact A|]. split; [exact B|]. split; [exact C|].
    exists (S k). split; [lia|]. rewrite E. simpl. apply iter_ports_pool_return_swap.
Qed.

(** X3: a client socket never takes a port from the pool: when
    [socket_utils_create_client_socket] succeeds on port [req], the socket
    is a connected client on [req], and the pool has only been touched by
    one [ports_pool_return(req)] per failed connect before the success (so
    it is unchanged when the first connect succeeds). *)
Theorem socket_utils_create_client_socket_pool (fuel : nat) (rnd : nat -> Z)
    (bind_ok : nat -> bool) (e : sock_env) (sck : janus_source_socket) (req : Z) sck' e' :
  req <> 0 ->
  socket_utils_create_client_socket fuel rnd bind_ok true e sck req
    = Some (Returned true, sck', e') ->
  sck' = mk_sock req true true false /\
  exists k, env_attempt e' = (k + S (env_attempt e))%nat /\
            env_pool e' = Nat.iter k (fun q => ports_pool_return q req) (env_pool e).
Proof.
  intros Hr H. unfold socket_utils_create_client_socket, socket_utils_create_socket in H.
  cbn [negb] in H.
  destruct (create_loop fuel rnd bind_ok req true e) as [[[r p] e'']|] eqn:L; [|discriminate].
  destruct (create_loop_client _ _ _ _ Hr _ _ _ _ _ L) as [A [B [_ K]]]. subst r p.
  cbn [negb] in H. rewrite (proj2 (Z.eqb_neq _ _) Hr) in H. inversion H; subst.
  split; [reflexivity | exact K].
Qed.

Lemma socket_utils_create_client_socket_pool_witness :
  socket_utils_create_client_socket 5 (fun _ => 4100) (fun n => Nat.leb 2 n) true
    (mk_env (mk_pool 4000 5000 [4000; 4001] 2) 0 0) (mk_sock 0 false false false) 4000
  = Some (Returned true, mk_sock 4000 true true false,
          mk_env (mk_pool 4000 5000 [4001] 0) 0 3) /\
  mk_sock 4000 true true false = mk_sock 4000 true true false /\
  exists k, 3%nat = (k + 1)%nat /\
    mk_pool 4000 5000 [4001] 0
    = Nat.iter k (fun q => ports_pool_return q 4000) (mk_pool 4000 5000 [4000; 4001] 2).
Proof.
  assert (H : socket_utils_create_client_socket 5 (fun _ => 4100) (fun n => Nat.leb 2 n) true
    (mk_env (mk_pool 4000 5000 [4000; 4001] 2) 0 0) (mk_sock 0 false false false) 4000
  = Some (Returned true, mk_sock 4000 true true false,
          mk_env (mk_pool 4000 5000 [4001] 0) 0 3)) by (vm_compute; reflexivity).
  split; [exact H|].
  exact (socket_utils_create_client_socket_pool _ _ _ _ _ 4000 _ _ ltac:(lia) H).
Defined.

(** X4: on an exhausted pool ([count >= max - min]) a server socket
    request does not return FALSE: the loop breaks with [result] still TRUE
    and [port] 0, and [g_assert(port)] aborts; the pool is untouched. *)
Theorem socket_utils_create_server_socket_exhausted (fuel : nat) (rnd : nat -> Z)
    (bind_ok : nat -> bool) (e : sock_env) (sck : janus_source_socket) :
  pp_max (env_pool e) - pp_min (env_pool e) <= pp_count (env_pool e) ->
  socket_utils_create_server_socket (S fuel) rnd bind_ok true e sck
  = Some (AssertFailed, mk_sock (sck_port sck) true (sck_is_client sck) false,
          mk_env (env_pool e) (env_draw e) (env_attempt e)).
Proof.
  intros Hx. unfold socket_utils_create_server_socket, socket_utils_create_socket.
  cbn [negb create_loop]. rewrite Z.eqb_refl.
  unfold ports_pool_get. rewrite (proj2 (Z.leb_le _ _) Hx). reflexivity.
Qed.

Lemma socket_utils_create_server_socket_exhausted_witness :
  4002 - 4000 <= 2 /\
  socket_utils_create_server_socket 1 (fun _ => 4000) (fun _ => true) true
    (mk_env (mk_pool 4000 4002 [4000; 4001] 2) 0 0) (mk_sock 0 false false false)
  = Some (AssertFailed, mk_sock 0 true false false,
          mk_env (mk_pool 4000 4002 [4000; 4001] 2) 0 0).
Proof.
  split; [lia|].
  exact (socket_utils_create_server_socket_exhausted 0 (fun _ => 4000) (fun _ => true)
           (mk_env (mk_pool 4000 4002 [4000; 4001] 2) 0 0) (mk_sock 0 false false false)
           ltac:(simpl; lia)).
Defined.

(** ** Configuration parsing *)

Lemma digits_value_acc_nonneg (acc : Z) (s : string) :
  0 <= acc -> 0 <= digits_value_acc acc s.
Proof.
  revert acc. induction s as [|c s IH]; cbn [digits_value_acc]; intros acc H; [exact H|].
  apply IH. lia.
Qed.

Lemma str_app_empty_r (s : string) : (s ++ EmptyString)%string = s.
Proof. induction s; simpl; congruence. Qed.

Lemma atoi_digits (s : string) :
  nonempty_run is_digit s = true -> digits_value s < 2147483648 -> atoi s = digits_value s.
Proof.
  intros Hs Hlt. unfold atoi. rewrite <- (str_app_empty_r s) at 1.
  rewrite (scan_int_digits s EmptyString Hs (head_not_empty is_digit)).
  pose proof (digits_value_acc_nonneg 0 s ltac:(lia)) as Hnn. fold (digits_value s) in Hnn.
  unfold clamp_long, wrap32.
  destruct (Z.ltb_spec 9223372036854775807 (digits_value s)); [lia|].
  destruct (Z.ltb_spec (digits_value s) (-9223372036854775808)); [lia|].
  rewrite Z.mod_small by lia.
  destruct (Z.ltb_spec (digits_value s) 2147483648); lia.
Qed.

Lemma strrchr_split_no_occ (c : ascii) (b : string) :
  (forall x, In x (list_ascii_of_string b) -> x <> c) -> strrchr_split c b = None.
Proof.
  induction b as [|x b IH]; simpl; intros H; [reflexivity|].
  rewrite IH by auto. unfold ascii_eqb.
  destruct (ascii_dec x c); [exfalso; apply (H x); auto|reflexivity].
Qed.

Lemma strrchr_split_last (c : ascii) (a b : string) :
  (forall x, In x (list_ascii_of_string b) -> x <> c) ->
  strrchr_split c (a ++ String c b) = Some (a, b).
Proof.
  intros Hb. induction a as [|x a IH]; simpl.
  - rewrite strrchr_split_no_occ by exact Hb. unfold ascii_eqb.
    destruct (ascii_dec c c); [reflexivity|congruence].
  - rewrite IH. reflexivity.
Qed.

Lemma all_digits_no_char (c : ascii) (b : string) :
  is_digit c = false -> all_cls is_digit b = true ->
  forall x, In x (list_ascii_of_string b) -> x <> c.
Proof.
  intros Hc. induction b as [|y b IH]; simpl; [tauto|].
  intros H x [<-|Hin]; apply andb_prop in H as [H1 H2].
  - intros ->. congruence.
  - exact (IH H2 x Hin).
Qed.

(** X5: whenever the [udp_port_range] item has a value, the range left in
    [udp_min_port] / [udp_max_port] is ordered and its upper end is not 0,
    whatever the text of the value (a value without '-' still swaps and
    replaces a 0 upper end); an absent item leaves both untouched. *)
Theorem janus_source_parse_ports_range_ordered (item : option (option string))
    (min_port max_port : Z) :
  0 <= min_port < 65536 -> 0 <= max_port < 65536 ->
  let '(mn, mx) := janus_source_parse_ports_range item min_port max_port in
  match item_value item with
  | None => mn = min_port /\ mx = max_port
  | Some _ => 0 <= mn <= mx /\ 0 < mx < 65536
  end.
Proof.
  intros Hmn Hmx. unfold janus_source_parse_ports_range.
  destruct (item_value item) as [v|]; [|auto].
  assert (Hr : exists a b, (match strrchr_split "-"%char v with
                            | Some (a, b) => (to_u16 (atoi a), to_u16 (atoi b))
                            | None => (min_port, max_port) end) = (a, b)
                           /\ 0 <= a < 65536 /\ 0 <= b < 65536).
  { destruct (strrchr_split "-"%char v) as [[x y]|].
    - exists (to_u16 (atoi x)), (to_u16 (atoi y)). unfold to_u16.
      split; [reflexivity|]. split; apply Z.mod_pos_bound; lia.
    - exists min_port, max_port. auto. }
  destruct Hr as (a & b & -> & Ha & Hb).
  destruct (Z.ltb_spec b a); cbn zeta.
  - destruct (Z.eqb_spec a 0); lia.
  - destruct (Z.eqb_spec b 0); lia.
Qed.

Lemma janus_source_parse_ports_range_ordered_witness :
  (0 <= 5000 < 65536 /\ 0 <= 4000 < 65536) /\
  (let '(mn, mx) := janus_source_parse_ports_range (Some (Some "9000")) 5000 4000 in
   match item_value (Some (Some "9000")) with
   | None => mn = 5000 /\ mx = 4000
   | Some _ => 0 <= mn <= mx /\ 0 < mx < 65536
   end).
Proof.
  split; [lia|].
  exact (janus_source_parse_ports_range_ordered (Some (Some "9000")) 5000 4000
           ltac:(lia) ltac:(lia)).
Defined.

(** X6: a value ["<a>-<b>"] of two decimal port numbers sets the range to
    the two numbers in increasing order, 0 as upper end meaning 65535. *)
Theorem janus_source_parse_ports_range_digits (a b : string) (min_port max_port : Z) :
  nonempty_run is_digit a = true -> nonempty_run is_digit b = true ->
  digits_value a < 65536 -> digits_value b < 65536 ->
  janus_source_parse_ports_range (Some (Some (a ++ "-" ++ b))) min_port max_port
  = (Z.min (digits_value a) (digits_value b),
     if Z.eqb (Z.max (digits_value a) (digits_value b)) 0 then 65535
     else Z.max (digits_value a) (digits_value b)).
Proof.
  intros Ha Hb Hva Hvb. unfold janus_source_parse_ports_range. cbn [item_value].
  change ("-" ++ b)%string with (String "-" b).
  rewrite strrchr_split_last
    by exact (all_digits_no_char "-" b eq_refl (nonempty_run_all _ _ Hb)).
  rewrite (atoi_digits a Ha ltac:(lia)), (atoi_digits b Hb ltac:(lia)).
  pose proof (digits_value_acc_nonneg 0 a ltac:(lia)) as Na.
  pose proof (digits_value_acc_nonneg 0 b ltac:(lia)) as Nb.
  fold (digits_value a) in Na. fold (digits_value b) in Nb.
  unfold to_u16. rewrite (Z.mod_small (digits_value a)), (Z.mod_small (digits_value b)) by lia.
  destruct (Z.ltb_spec (digits_value b) (digits_value a)); cbn zeta.
  - rewrite Z.min_r, Z.max_l by lia. reflexivity.
  - rewrite Z.min_l, Z.max_r by lia. reflexivity.
Qed.

Lemma janus_source_parse_ports_range_digits_witness :
  janus_source_parse_ports_range (Some (Some ("6000" ++ "-" ++ "5000"))) 0 0 = (5000, 6000).
Proof.
  rewrite (janus_source_parse_ports_range_digits "6000" "5000" 0 0 eq_refl eq_refl
             ltac:(vm_compute; reflexivity) ltac:(vm_compute; reflexivity)).
  vm_compute. reflexivity.
Defined.

Lemma parse_ports_range_bounds (item : option (option string)) (mn mx : Z) :
  0 <= mn <= mx /\ mx < 65536 ->
  0 <= fst (janus_source_parse_ports_range item mn mx)
     <= snd (janus_source_parse_ports_range item mn mx) /\
  snd (janus_source_parse_ports_range item mn mx) < 65536.
Proof.
  intros H. unfold janus_source_parse_ports_range.
  destruct (item_value item) as [v|]; [|exact H].
  assert (Hr : exists a b, (match strrchr_split "-"%char v with
                            | Some (a, b) => (to_u16 (atoi a), to_u16 (atoi b))
                            | None => (mn, mx) end) = (a, b)
                           /\ 0 <= a < 65536 /\ 0 <= b < 65536).
  { destruct (strrchr_split "-"%char v) as [[x y]|].
    - exists (to_u16 (atoi x)), (to_u16 (atoi y)). unfold to_u16.
      split; [reflexivity|]. split; apply Z.mod_pos_bound; lia.
    - exists mn, mx. split; [reflexivity|lia]. }
  destruct Hr as (a & b & -> & Ha & Hb).
  destruct (Z.ltb_spec b a); cbn zeta; simpl.
  - destruct (Z.eqb_spec a 0); simpl; lia.
  - destruct (Z.eqb_spec b 0); simpl; lia.
Qed.

Lemma parse_video_codec_priority_length (item : option (option string)) (u : bool)
    (l : list idilia_codec) :
  List.length l = 2%nat ->
  List.length (snd (janus_source_parse_video_codec_priority item u l)) = 2%nat.
Proof.
  intros H. unfold janus_source_parse_video_codec_priority.
  destruct (item_value item) as [v|]; [destruct (strrchr_split ","%char v) as [[x y]|]|];
    simpl; auto.
Qed.

Lemma parse_category_inv (cat : janus_config_category) (c : config_globals) :
  config_inv c -> config_inv (janus_source_parse_category cat c).
Proof.
  intros [Hp [Hm Hl]]. unfold janus_source_parse_category.
  pose proof (parse_ports_range_bounds (janus_config_get_item (cat_items cat) "udp_port_range")
                _ _ (conj Hp Hm)) as Hb.
  pose proof (parse_video_codec_priority_length
                (janus_config_get_item (cat_items cat) "video_codec_priority")
                (c_use_codec_priority c) _ Hl) as Hv.
  destruct (janus_source_parse_ports_range _ _ _) as [mn mx].
  destruct (janus_source_parse_video_codec_priority _ _ _) as [u l].
  unfold config_inv. simpl in *. repeat split; lia.
Qed.

(** X7: after the configuration part of [janus_source_init] the port range
    handed to [socket_utils_init] satisfies [0 < udp_min_port <= udp_max_port
    <= 65535], and the codec priority list still has its two entries,
    whatever the configuration file holds (or when it cannot be parsed). *)
Theorem janus_source_init_config_ports (config : option (list janus_config_category))
    (c : config_globals) :
  config_inv c ->
  let c' := janus_source_init_config config c in
  0 < c_udp_min_port c' <= c_udp_max_port c' /\ c_udp_max_port c' < 65536 /\
  List.length (c_codec_priority_list c') = 2%nat.
Proof.
  intros Hc. unfold janus_source_init_config.
  assert (H1 : config_inv (match config with
                           | None => c
                           | Some cats =>
                               fold_left (fun acc cat =>
                                            match cat_name cat with
                                            | None => acc
                                            | Some _ => janus_source_parse_category cat acc
                                            end) cats c
                           end)).
  { destruct config as [cats|]; [|exact Hc].
    revert c Hc. induction cats as [|cat cats IH]; intros c Hc; simpl; [exact Hc|].
    apply IH. destruct (cat_name cat); [apply parse_category_inv|]; exact Hc. }
  destruct (match config with Some _ => _ | None => c end) as [mn mx ki ka st u l ip].
  destruct H1 as (H1 & H2 & H3). simpl in H1, H2, H3.
  cbv zeta. cbn [c_udp_min_port c_udp_max_port].
  destruct (Z.leb mn 0) eqn:E1; [simpl; refine (conj _ (conj _ H3)); lia|].
  destruct (Z.leb mx 0) eqn:E2; [simpl; refine (conj _ (conj _ H3)); lia|].
  apply Z.leb_gt in E1. apply Z.leb_gt in E2. simpl. refine (conj _ (conj _ H3)); lia.
Qed.

Lemma janus_source_init_config_ports_witness :
  config_inv config_initial /\
  (let c' := janus_source_init_config
               (Some [mk_category (Some "general") [("udp_port_range", Some "20000-10000")]])
               config_initial in
   0 < c_udp_min_port c' <= c_udp_max_port c' /\ c_udp_max_port c' < 65536 /\
   List.length (c_codec_priority_list c') = 2%nat).
Proof.
  assert (H : config_inv config_initial) by (vm_compute; repeat split; congruence).
  split; [exact H|].
  exact (janus_source_init_config_ports
           (Some [mk_category (Some "general") [("udp_port_range", Some "20000-10000")]])
           config_initial H).
Defined.

(** X8: a [keepalive_interval] of [n] seconds written in decimal is stored
    as [1000000 * n] computed in 32-bit unsigned arithmetic; it is exact up
    to [n = 4294] and wraps around from [n = 4295] on. *)
Theorem janus_source_parse_keepalive_interval_digits (v : string) (k : Z) :
  nonempty_run is_digit v = true -> digits_value v < 2147483648 ->
  janus_source_parse_keepalive_interval (Some (Some v)) k
  = (1000000 * digits_value v) mod 4294967296 /\
  (digits_value v <= 4294 ->
   janus_source_parse_keepalive_interval (Some (Some v)) k = 1000000 * digits_value v).
Proof.
  intros Hv Hlt.
  pose proof (digits_value_acc_nonneg 0 v ltac:(lia)) as Nv. fold (digits_value v) in Nv.
  assert (E : janus_source_parse_keepalive_interval (Some (Some v)) k
              = (1000000 * digits_value v) mod 4294967296).
  { unfold janus_source_parse_keepalive_interval. cbn [item_value].
    rewrite (atoi_digits v Hv Hlt). unfold to_u32, G_USEC_PER_SEC.
    rewrite (Z.mod_small (digits_value v)) by lia.
    destruct (Z.eqb _ 0); reflexivity. }
  split; [exact E|]. intros Hle. rewrite E. apply Z.mod_small. lia.
Qed.

Lemma janus_source_parse_keepalive_interval_digits_witness :
  janus_source_parse_keepalive_interval (Some (Some "4295")) 5000000 = 32704.
Proof.
  rewrite (proj1 (janus_source_parse_keepalive_interval_digits "4295" 5000000
                    eq_refl ltac:(vm_compute; reflexivity))).
  vm_compute. reflexivity.
Defined.

(** X9: a [keepalive_interval] item whose value reads as 0 seconds (["0"],
    or text [atoi] does not read as a number) sets the interval to 0: the
    fallback to [keepalive_interval] reads back the 0 just stored through
    the same pointer, so the previous (or default 5 s) interval is lost. *)
Theorem janus_source_parse_keepalive_interval_zero (v : string) (k : Z) :
  to_u32 (atoi v) = 0 ->
  janus_source_parse_keepalive_interval (Some (Some v)) k = 0.
Proof.
  intros H. unfold janus_source_parse_keepalive_interval. cbn [item_value].
  rewrite H. reflexivity.
Qed.

Lemma janus_source_parse_keepalive_interval_zero_witness :
  to_u32 (atoi "never") = 0 /\
  janus_source_parse_keepalive_interval (Some (Some "never")) 5000000 = 0.
Proof.
  assert (H : to_u32 (atoi "never") = 0) by (vm_compute; reflexivity).
  split; [exact H|]. exact (janus_source_parse_keepalive_interval_zero "never" 5000000 H).
Defined.

(** ** Codec names *)

(** X10: [sdp_codec_name_to_id] inverts [get_codec_name] on every codec but
    [IDILIA_CODEC_MAX], which has no name of its own and comes back as
    [IDILIA_CODEC_INVALID]. *)
Theorem sdp_codec_name_to_id_get_codec_name (c : idilia_codec) :
  sdp_codec_name_to_id (Some (get_codec_name c))
  = if idilia_codec_eqb c IDILIA_CODEC_MAX then IDILIA_CODEC_INVALID else c.
Proof. destruct c; vm_compute; reflexivity. Qed.

(** X11: a [video_codec_priority] value ["<name1>,<name2>"] made of the
    names [get_codec_name] gives sets the priority list to the two codecs
    in that order and turns [use_codec_priority] on; an absent item turns
    it off and keeps the list. *)
Theorem janus_source_parse_video_codec_priority_names (a b : idilia_codec)
    (use : bool) (l : list idilia_codec) :
  a <> IDILIA_CODEC_MAX -> b <> IDILIA_CODEC_MAX ->
  janus_source_parse_video_codec_priority
    (Some (Some (get_codec_name a ++ "," ++ get_codec_name b))) use l = (true, [a; b]) /\
  janus_source_parse_video_codec_priority None use l = (false, l).
Proof.
  intros Ha Hb. split; [|reflexivity].
  destruct a; try congruence; destruct b; try congruence; vm_compute; reflexivity.
Qed.

Lemma janus_source_parse_video_codec_priority_names_witness :
  janus_source_parse_video_codec_priority
    (Some (Some (get_codec_name IDILIA_CODEC_VP9 ++ "," ++ get_codec_name IDILIA_CODEC_H264)))
    false default_codec_priority_list = (true, [IDILIA_CODEC_VP9; IDILIA_CODEC_H264]).
Proof.
  exact (proj1 (janus_source_parse_video_codec_priority_names IDILIA_CODEC_VP9
                  IDILIA_CODEC_H264 false default_codec_priority_list
                  ltac:(discriminate) ltac:(discriminate))).
Defined.

(** ** RTCP from the peer *)

(** X12: [incoming_rtcp] does not honour the active flags: on a live
    session it forwards the packet on [video_rtcp_rcv_cli] /
    [audio_rtcp_rcv_cli] whatever [audio_active] / [video_active] say, while
    [incoming_rtp] drops an RTP packet of an inactive kind. *)
Theorem janus_source_incoming_rtcp_ignores_active (g : globals) (video : Z) (buf : list Z)
    (s : plugin_state) (tbl : list (string * janus_source_socket)) (sck : janus_source_socket) :
  ps_handle_stopped s = false -> g_stopping g = false -> g_initialized g = true ->
  g_gateway g = true -> ps_attached s = true -> s_destroyed (ps_session s) = 0 ->
  s_sockets (ps_session s) = Some tbl ->
  table_lookup tbl (if negb (Z.eqb video 0) then "video_rtcp_rcv_cli" else "audio_rtcp_rcv_cli")
  = Some sck ->
  snd (janus_source_incoming_rtcp g false video buf s)
  = mk_ps (ps_handle_stopped s) (ps_attached s) (ps_session s) (ps_in_sessions s)
      (ps_old_sessions s) (ps_pool s) (ps_callback_data s) (ps_json s) (ps_next s)
      (ps_trace s ++ [SocketSend (sck_port sck) buf])
  /\ (kind_active (ps_session s) video = false ->
      snd (janus_source_incoming_rtp g false video buf s) = s).
Proof.
  intros Hst Hsp Hin Hgw Hat Hd Hs Ht.
  destruct s as [st at_ ss inm old pp cbs h nx tr]; simpl in *. subst st at_. split.
  - unfold janus_source_incoming_rtcp, entry_blocked, bind, gets, ret, get_session.
    rewrite Hsp, Hin, Hgw. cbn. rewrite Hd. cbn.
    unfold janus_source_relay_rtcp. rewrite Hs, Ht. reflexivity.
  - unfold kind_active. intros Hk.
    unfold janus_source_incoming_rtp, entry_blocked, bind, gets, ret, get_session.
    rewrite Hsp, Hin, Hgw. cbn. rewrite Hd. cbn.
    destruct (Z.eqb video 0); simpl in *; rewrite Hk; reflexivity.
Qed.

Lemma janus_source_incoming_rtcp_ignores_active_witness :
  snd (janus_source_incoming_rtcp cfg_globals false 1 [1; 2] cfg_rtcp_state)
  = mk_ps false true (ps_session cfg_rtcp_state) true 0 cfg_pool [] [] 0
      [SocketSend 4003 [1; 2]]
  /\ snd (janus_source_incoming_rtp cfg_globals false 1 [1; 2] cfg_rtcp_state) = cfg_rtcp_state.
Proof.
  destruct (janus_source_incoming_rtcp_ignores_active cfg_globals 1 [1; 2] cfg_rtcp_state
              [("video_rtcp_rcv_cli", mk_sock 4003 true true false)]
              (mk_sock 4003 true true false)
              eq_refl eq_refl eq_refl eq_refl eq_refl eq_refl eq_refl eq_refl) as [A B].
  split; [exact A | apply B; reflexivity].
Defined.

(** ** Session life cycle *)

(** X13: a session created by [create_session] is reported by
    [query_session] with both kinds active, no bitrate cap, no slow-link
    event and not destroyed; creation puts the handle in the sessions map
    without any outward effect.  While the plugin is stopping or not
    initialised, [create_session] answers -1 and changes nothing and
    [query_session] returns NULL. *)
Theorem janus_source_create_then_query_session (g : globals) (s : plugin_state) :
  (g_stopping g = false -> g_initialized g = true ->
   let '(err, s1) := janus_source_create_session g s in
   let '(q, s2) := janus_source_query_session g s1 in
   (err = None /\ ps_in_sessions s2 = true /\ ps_attached s2 = true /\
    ps_trace s2 = ps_trace s /\
    q = Some [("audio_active", QBool true); ("video_active", QBool true);
              ("bitrate", QInt 0); ("slowlink_count", QInt 0); ("destroyed", QInt 0)])) /\
  ((g_stopping g || negb (g_initialized g))%bool = true ->
   janus_source_create_session g s = (Some (-1), s) /\
   janus_source_query_session g s = (None, s)).
Proof.
  split.
  - intros Hsp Hin.
    unfold janus_source_create_session, janus_source_query_session.
    rewrite Hsp, Hin. destruct s. repeat split.
  - intros Hb. unfold janus_source_create_session, janus_source_query_session.
    rewrite Hb. split; reflexivity.
Qed.

(** X14: destroying a session right after creating it (before any media
    set-up registered its stream) still sends the registry a DELETE, on
    [<status_service_url>/(null)] since [db_entry_session_id] is NULL; the
    session is stamped [destroyed = now], leaves the sessions map and joins
    [old_sessions]; the port pool is untouched. *)
Theorem janus_source_create_then_destroy_session (g : globals) (now : Z) (s : plugin_state) :
  g_stopping g = false -> g_initialized g = true ->
  let '(err, s1) := janus_source_create_session g s in
  let '(derr, s2) := janus_source_destroy_session g now s1 in
  err = None /\ derr = None /\
  ps_trace s2 = (ps_trace s ++ [CurlRequest (g_status_service_url g ++ "/(null)") "{}" "DELETE"])%list /\
  s_destroyed (ps_session s2) = now /\ ps_in_sessions s2 = false /\
  ps_old_sessions s2 = S (ps_old_sessions s) /\ ps_pool s2 = ps_pool s.
Proof.
  intros Hsp Hin.
  unfold janus_source_create_session, janus_source_destroy_session.
  rewrite Hsp, Hin. destruct s. cbn.
  repeat split; reflexivity.
Qed.

Lemma janus_source_create_then_destroy_session_witness :
  let '(err, s1) := janus_source_create_session cfg_globals (cfg_state cfg_session cfg_pool) in
  let '(derr, s2) := janus_source_destroy_session cfg_globals 77 s1 in
  err = None /\ derr = None /\
  ps_trace s2 = [CurlRequest ("http://registry/streams" ++ "/(null)") "{}" "DELETE"] /\
  s_destroyed (ps_session s2) = 77 /\ ps_in_sessions s2 = false /\
  ps_old_sessions s2 = 1%nat /\ ps_pool s2 = cfg_pool.
Proof.
  exact (janus_source_create_then_destroy_session cfg_globals 77 (cfg_state cfg_session cfg_pool)
           eq_refl eq_refl).
Defined.

Lemma janus_source_create_then_query_session_witness :
  let '(err, s1) := janus_source_create_session cfg_globals (cfg_state cfg_session cfg_pool) in
  let '(q, s2) := janus_source_query_session cfg_globals s1 in
  err = None /\ ps_in_sessions s2 = true /\ ps_attached s2 = true /\
  ps_trace s2 = [] /\
  q = Some [("audio_active", QBool true); ("video_active", QBool true);
            ("bitrate", QInt 0); ("slowlink_count", QInt 0); ("destroyed", QInt 0)].
Proof.
  exact (proj1 (janus_source_create_then_query_session cfg_globals
                  (cfg_state cfg_session cfg_pool)) eq_refl eq_refl).
Defined.

Lemma hangup_media_session (g : globals) (s : plugin_state) :
  g_stopping g = false -> g_initialized g = true -> ps_attached s = true ->
  s_destroyed (ps_session s) = 0 ->
  let s1 := snd (janus_source_hangup_media g s) in
  ps_attached s1 = true /\ s_destroyed (ps_session s1) = 0 /\
  s_hangingup (ps_session s1) = s_hangingup (ps_session s) + 1 /\
  s_id (ps_session s1) = s_id (ps_session s).
Proof.
  intros Hsp Hin Hat Hd.
  destruct s as [st at_ ss inm old pp cbs h nx tr]; simpl in Hat, Hd; subst at_.
  unfold janus_source_hangup_media. rewrite Hsp, Hin. cbn. rewrite Hd. cbn.
  destruct (Z.eqb (s_hangingup ss) 0); cbn; [|repeat split; auto].
  unfold json_object_set_new, push_event, json_decref, get_session, put_session, put_json,
    emit, modify, gets, bind, ret. cbn.
  repeat progress (cbn; rewrite ?Nat.eqb_refl).
  repeat split; auto.
Qed.

Lemma setup_media_live (g : globals) (s : plugin_state) :
  g_stopping g = false -> g_initialized g = true -> ps_attached s = true ->
  s_destroyed (ps_session s) = 0 ->
  janus_source_setup_media g s
  = (true, mk_ps (ps_handle_stopped s) (ps_attached s) (set_hangingup (ps_session s) 0)
             (ps_in_sessions s) (ps_old_sessions s) (ps_pool s) (ps_callback_data s)
             (ps_json s) (ps_next s) (ps_trace s)).
Proof.
  intros Hsp Hin Hat Hd.
  destruct s as [st at_ ss inm old pp cbs h nx tr]; simpl in Hat, Hd; subst at_.
  unfold janus_source_setup_media. rewrite Hsp, Hin. cbn. rewrite Hd. reflexivity.
Qed.

(** X15: [hangup_media] parks a live session: the RTSP client callback
    queued for it then does nothing, until [setup_media] clears [hangingup]
    and queues the callback again, which then publishes the stream: whatever
    the registry answers, the session ends up with the URL
    [rtsp://<ip>:<port>/<id>]. *)
Theorem janus_source_setup_media_rearms (g : globals) (s : plugin_state) (rtsp_ip : string)
    (rtsp_port : Z) (srv cli : list (string * janus_source_socket))
    (response : registry_response) :
  g_stopping g = false -> g_initialized g = true -> ps_attached s = true ->
  s_destroyed (ps_session s) = 0 -> 0 <= s_hangingup (ps_session s) ->
  let s1 := snd (janus_source_hangup_media g s) in
  snd (janus_rtsp_handle_client_callback g rtsp_ip rtsp_port srv cli response s1) = s1 /\
  let '(queued, s2) := janus_source_setup_media g s1 in
  (queued = true /\
   s_rtsp_url (ps_session
     (snd (janus_rtsp_handle_client_callback g rtsp_ip rtsp_port srv cli response s2)))
   = Some ("rtsp://" ++ rtsp_ip ++ ":" ++ printf_d rtsp_port ++ "/"
           ++ printf_s (s_id (ps_session s)))).
Proof.
  intros Hsp Hin Hat Hd Hh.
  destruct (hangup_media_session g s Hsp Hin Hat Hd) as (Ha1 & Hd1 & Hh1 & Hi1).
  cbv zeta. set (s1 := snd (janus_source_hangup_media g s)) in *.
  split.
  - unfold janus_rtsp_handle_client_callback, bind, get_session, gets.
    cbn. rewrite Hd1, Hh1.
    destruct (Z.eqb_spec (s_hangingup (ps_session s) + 1) 0); [lia|]. reflexivity.
  - rewrite (setup_media_live g s1 Hsp Hin Ha1 Hd1). split; [reflexivity|].
    clearbody s1. destruct s1 as [st at_ ss inm old pp cbs h nx tr].
    cbn in Ha1, Hd1, Hi1. subst at_. rewrite <- Hi1.
    unfold janus_rtsp_handle_client_callback.
    unfold json_object_set_new, push_event, json_decref, get_session, put_session, put_json,
      put_callback_data, g_new0, json_object, emit, modify, gets, bind, ret.
    cbn -[String.eqb wrap32 json_integer_value json_object_get printf_d]. rewrite Hd1. cbn -[String.eqb wrap32 json_integer_value json_object_get printf_d].
    destruct response as [[r|r|fs]|]; cbn -[String.eqb wrap32 json_integer_value json_object_get printf_d]; try reflexivity.
    destruct (Z.eqb (wrap32 (json_integer_value (json_object_get fs "code"))) 0);
      cbn -[String.eqb wrap32 json_integer_value json_object_get printf_d]; [reflexivity|].
    destruct (String.eqb "11000" (printf_d (wrap32 (json_integer_value (json_object_get fs "code")))));
      cbn; [|reflexivity].
    unfold janus_source_hangup_media, janus_source_send_id_error.
    rewrite Hsp, Hin. cbn. rewrite Hd1. cbn.
    unfold json_object_set_new, push_event, json_decref, get_session, put_session, put_json,
      json_object, emit, modify, gets, bind, ret.
    repeat progress (cbn; rewrite ?Nat.eqb_refl, ?Hd1). reflexivity.
Qed.

Lemma janus_source_setup_media_rearms_witness :
  let s1 := snd (janus_source_hangup_media cfg_globals (cfg_state cfg_session cfg_pool)) in
  snd (janus_rtsp_handle_client_callback cfg_globals "10.0.0.1" 554 cfg_srv_sockets
         cfg_cli_sockets (Some (JObject [("code", JInt 0); ("_id", JString "abc")])) s1) = s1 /\
  let '(queued, s2) := janus_source_setup_media cfg_globals s1 in
  (queued = true /\
   s_rtsp_url (ps_session
     (snd (janus_rtsp_handle_client_callback cfg_globals "10.0.0.1" 554 cfg_srv_sockets
             cfg_cli_sockets (Some (JObject [("code", JInt 0); ("_id", JString "abc")])) s2)))
   = Some ("rtsp://" ++ "10.0.0.1" ++ ":" ++ printf_d 554 ++ "/"
           ++ printf_s (s_id (ps_session (cfg_state cfg_session cfg_pool))))).
Proof.
  exact (janus_source_setup_media_rearms cfg_globals (cfg_state cfg_session cfg_pool)
           "10.0.0.1" 554 cfg_srv_sockets cfg_cli_sockets
           (Some (JObject [("code", JInt 0); ("_id", JString "abc")]))
           eq_refl eq_refl eq_refl eq_refl ltac:(simpl; lia)).
Defined.

(** ** Requests of the handler thread *)

Ltac heap_steps H :=
  unfold json_object_set_new, push_event, json_decref, get_session, put_session, put_json,
    json_object, emit, modify, gets, bind, ret;
  repeat progress (cbn; rewrite ?Nat.eqb_refl, ?H).

(** X16: a request that is NULL, not a JSON object, or an object that fails
    one of the element checks is answered with a single error event
    [{source, error_code, error}] and changes nothing in the session. *)
Theorem janus_source_handler_rejects (message : option msg_json) (s : plugin_state)
    (code : Z) (cause : string) :
  ps_in_sessions s = true -> ps_attached s = true -> s_destroyed (ps_session s) = 0 ->
  match message with
  | None => Some (JANUS_SOURCE_ERROR_NO_MESSAGE, "No message??")
  | Some (MObj fs) => handler_check fs
  | Some _ => Some (JANUS_SOURCE_ERROR_INVALID_JSON, "JSON error: not an object")
  end = Some (code, cause) ->
  let s' := snd (janus_source_handle_message_nojsep false message s) in
  ps_session s' = ps_session s /\
  ps_trace s' = (ps_trace s ++ [PushEvent (Some (JObject [("source", JString "event");
                                                       ("error_code", JInt code);
                                                       ("error", JString cause)]))])%list.
Proof.
  intros Hm Ha Hd Hc.
  destruct s as [st at_ ss inm old pp cbs h nx tr]; cbn in Hm, Ha, Hd; subst inm at_.
  unfold janus_source_handle_message_nojsep, bind, gets, ret, get_session. cbn.
  rewrite Hd. cbn.
  destruct message as [[| | | | | | |fs]|]; cbn in Hc;
    try (injection Hc as <- <-; unfold handler_error; heap_steps Hd; split; reflexivity).
  rewrite Hc. unfold handler_error. heap_steps Hd. split; reflexivity.
Qed.

Lemma janus_source_handler_rejects_witness :
  let s' := snd (janus_source_handle_message_nojsep false
                   (Some (MObj [("audio", MTrue); ("bitrate", MInt (-5))]))
                   (cfg_state cfg_session cfg_pool)) in
  ps_session s' = cfg_session /\
  ps_trace s' = [PushEvent (Some (JObject [("source", JString "event");
                                        ("error_code", JInt 413);
                                        ("error", JString "Invalid value (bitrate should be a positive integer)")]))].
Proof.
  exact (janus_source_handler_rejects (Some (MObj [("audio", MTrue); ("bitrate", MInt (-5))]))
           (cfg_state cfg_session cfg_pool) 413
           "Invalid value (bitrate should be a positive integer)" eq_refl eq_refl eq_refl eq_refl).
Defined.



Lemma enforce_audio_step (a : option msg_json) (s : plugin_state) :
  handler_enforce_audio a s
  = (tt, mk_ps (ps_handle_stopped s) (ps_attached s)
           (match a with
            | Some j => set_active (ps_session s) (json_is_true j)
                          (s_video_active (ps_session s)) (s_bitrate (ps_session s))
            | None => ps_session s end)
           (ps_in_sessions s) (ps_old_sessions s) (ps_pool s) (ps_callback_data s)
           (ps_json s) (ps_next s) (ps_trace s)).
Proof. destruct s, a; reflexivity. Qed.

Lemma enforce_video_step (v : option msg_json) (s : plugin_state) :
  handler_enforce_video v s
  = (tt, mk_ps (ps_handle_stopped s) (ps_attached s)
           (match v with
            | Some j => set_active (ps_session s) (s_audio_active (ps_session s))
                          (json_is_true j) (s_bitrate (ps_session s))
            | None => ps_session s end)
           (ps_in_sessions s) (ps_old_sessions s) (ps_pool s) (ps_callback_data s)
           (ps_json s) (ps_next s)
           (ps_trace s ++ match v with
                          | Some MTrue => if s_video_active (ps_session s) then []
                                          else [RelayRtcp 1 RtcpPli]
                          | _ => []
                          end)%list).
Proof.
  destruct s as [st at_ ss inm old pp cbs h nx tr].
  destruct v as [[]|]; cbn; try (rewrite app_nil_r; reflexivity);
    destruct (s_video_active ss); cbn; rewrite ?app_nil_r; reflexivity.
Qed.

Lemma enforce_bitrate_step (b : option msg_json) (s : plugin_state) :
  handler_enforce_bitrate b s
  = (tt, mk_ps (ps_handle_stopped s) (ps_attached s)
           (match b with
            | Some j => set_active (ps_session s) (s_audio_active (ps_session s))
                          (s_video_active (ps_session s)) (match j with MInt z => z | _ => 0 end)
            | None => ps_session s end)
           (ps_in_sessions s) (ps_old_sessions s) (ps_pool s) (ps_callback_data s)
           (ps_json s) (ps_next s)
           (ps_trace s ++ match b with
                          | Some (MInt z) => if Z.ltb 0 z then [RelayRtcp 1 (RtcpRemb z)] else []
                          | _ => []
                          end)%list).
Proof.
  destruct s as [st at_ ss inm old pp cbs h nx tr].
  destruct b as [[| | |z| | | |]|]; cbn; try (rewrite app_nil_r; reflexivity).
  destruct (Z.ltb 0 z); cbn; rewrite ?app_nil_r; reflexivity.
Qed.

Lemma enforce_id_step (i : option msg_json) (s : plugin_state) :
  handler_enforce_id i s
  = (tt, mk_ps (ps_handle_stopped s) (ps_attached s)
           (match i with
            | Some (MStr x) => set_strings (ps_session s) (s_db_entry_session_id (ps_session s))
                                 (s_rtsp_url (ps_session s)) (Some x)
            | _ => ps_session s end)
           (ps_in_sessions s) (ps_old_sessions s) (ps_pool s) (ps_callback_data s)
           (ps_json s) (ps_next s) (ps_trace s)).
Proof. destruct s, i as [[]|]; reflexivity. Qed.

Lemma handler_ok_step (s : plugin_state) :
  ps_session (snd (handler_ok s)) = ps_session s /\
  ps_trace (snd (handler_ok s))
  = (ps_trace s ++ [PushEvent (Some (JObject [("source", JString "event");
                                            ("result", JString "ok")]))])%list.
Proof.
  destruct s as [st at_ ss inm old pp cbs h nx tr]. unfold handler_ok.
  unfold json_object_set_new, push_event, json_decref, get_session, put_session, put_json,
    json_object, emit, modify, gets, bind, ret.
  repeat progress (cbn; rewrite ?Nat.eqb_refl). split; reflexivity.
Qed.

(** X18: a request object that passes the checks and carries at least one
    attribute is enforced field by field: [audio] / [video] set the active
    flags, [bitrate] sets the cap and [id] the stream id; re-enabling a
    disabled video relays a PLI, a positive bitrate relays a REMB carrying
    it, and the request is acknowledged with [{source: event, result: ok}]. *)
Theorem janus_source_handler_enforces (fs : list (string * msg_json)) (s : plugin_state) :
  ps_in_sessions s = true -> ps_attached s = true -> s_destroyed (ps_session s) = 0 ->
  handler_check fs = None ->
  (msg_get fs "audio", msg_get fs "video", msg_get fs "bitrate", msg_get fs "record",
   msg_get fs "id") <> (None, None, None, None, None) ->
  let ss := ps_session s in
  let s' := snd (janus_source_handle_message_nojsep false (Some (MObj fs)) s) in
  s_audio_active (ps_session s')
  = match msg_get fs "audio" with Some j => json_is_true j | None => s_audio_active ss end /\
  s_video_active (ps_session s')
  = match msg_get fs "video" with Some j => json_is_true j | None => s_video_active ss end /\
  s_bitrate (ps_session s')
  = match msg_get fs "bitrate" with Some (MInt z) => z | _ => s_bitrate ss end /\
  s_id (ps_session s')
  = match msg_get fs "id" with Some (MStr i) => Some i | _ => s_id ss end /\
  ps_trace s'
  = (ps_trace s
     ++ match msg_get fs "video" with
        | Some MTrue => if s_video_active ss then [] else [RelayRtcp 1 RtcpPli]
        | _ => []
        end
     ++ match msg_get fs "bitrate" with
        | Some (MInt z) => if Z.ltb 0 z then [RelayRtcp 1 (RtcpRemb z)] else []
        | _ => []
        end
     ++ [PushEvent (Some (JObject [("source", JString "event"); ("result", JString "ok")]))])%list.
Proof.
  intros Hm Ha Hd Hc Hne.
  destruct s as [st at_ ss inm old pp cbs h nx tr]; cbn in Hm, Ha, Hd; subst inm at_.
  cbv zeta.
  match goal with |- context [janus_source_handle_message_nojsep false ?m ?st0] =>
    remember (janus_source_handle_message_nojsep false m st0) as R eqn:ER end.
  unfold janus_source_handle_message_nojsep in ER.
  cbn -[handler_enforce_audio handler_enforce_video handler_enforce_bitrate handler_enforce_id
        handler_ok handler_error handler_check msg_get] in ER.
  rewrite Hd in ER. cbn -[handler_enforce_audio handler_enforce_video handler_enforce_bitrate
                    handler_enforce_id handler_ok handler_error handler_check msg_get] in ER.
  rewrite Hc in ER.
  set (a := msg_get fs "audio") in *. set (v := msg_get fs "video") in *.
  set (b := msg_get fs "bitrate") in *. set (r := msg_get fs "record") in *.
  set (i := msg_get fs "id") in *.
  assert (Hb : match b with Some (MInt z) => True | Some _ => False | None => True end).
  { unfold handler_check in Hc. fold a v b in Hc.
    destruct (match a with Some j => negb (json_is_boolean j) | None => false end);
      [discriminate|].
    destruct (match v with Some j => negb (json_is_boolean j) | None => false end);
      [discriminate|].
    destruct b as [[]|]; cbn in Hc; auto; discriminate. }
  assert (Hf : forall st0, (match a, v, b, r, i with
                            | None, None, None, None, None =>
                                handler_error JANUS_SOURCE_ERROR_INVALID_ELEMENT
                                  "Message error: no supported attributes (audio, video, bitrate, record, id, jsep) found"
                            | _, _, _, _, _ => handler_ok
                            end) st0 = handler_ok st0).
  { intros st0. destruct a, v, b, r, i; try reflexivity. exfalso; apply Hne; reflexivity. }
  unfold bind at 1 in ER. rewrite enforce_audio_step in ER.
  cbn -[handler_enforce_video handler_enforce_bitrate handler_enforce_id handler_ok
        handler_error] in ER.
  unfold bind at 1 in ER. rewrite enforce_video_step in ER.
  cbn -[handler_enforce_bitrate handler_enforce_id handler_ok handler_error] in ER.
  unfold bind at 1 in ER. rewrite enforce_bitrate_step in ER.
  cbn -[handler_enforce_id handler_ok handler_error] in ER.
  unfold bind at 1 in ER. rewrite enforce_id_step in ER. cbn -[handler_ok handler_error] in ER.
  rewrite Hf in ER. subst R.
  match goal with |- context [handler_ok ?x] =>
    generalize (handler_ok_step x); destruct (handler_ok x) as [u s2] end.
  cbn. intros [H1 H2]. rewrite H1, H2. cbn.
  destruct a as [ja|], v as [jv|], b as [[| | |z| | | |]|], i as [[| | | | | | |]|];
    cbn; try contradiction; rewrite <- ?app_assoc; repeat split; reflexivity.
Qed.

Lemma janus_source_handler_enforces_witness :
  let s' := snd (janus_source_handle_message_nojsep false
                   (Some (MObj [("video", MTrue); ("bitrate", MInt 256000)]))
                   (cfg_state (set_active cfg_session true false 0) cfg_pool)) in
  s_audio_active (ps_session s') = true /\ s_video_active (ps_session s') = true /\
  s_bitrate (ps_session s') = 256000 /\ s_id (ps_session s') = Some "cam1" /\
  ps_trace s' = [RelayRtcp 1 RtcpPli; RelayRtcp 1 (RtcpRemb 256000);
                 PushEvent (Some (JObject [("source", JString "event"); ("result", JString "ok")]))].
Proof.
  exact (janus_source_handler_enforces [("video", MTrue); ("bitrate", MInt 256000)]
           (cfg_state (set_active cfg_session true false 0) cfg_pool)
           eq_refl eq_refl eq_refl eq_refl ltac:(discriminate)).
Defined.

(** ** SDP parsing *)

Lemma try_len_some (rest : string -> option nat) (s : string) (k n : nat) :
  try_len rest s k = Some n ->
  exists j n', (1 <= j <= k)%nat /\ rest (str_drop j s) = Some n' /\ n = (j + n')%nat.
Proof.
  induction k as [|k IH]; cbn [try_len]; intros H; [discriminate|].
  destruct (rest (str_drop (S k) s)) as [n'|] eqn:E.
  - injection H as <-. exists (S k), n'. split; [lia|]. split; [exact E | reflexivity].
  - destruct (IH H) as (j & n' & Hj & Hr & ->). exists j, n'. split; [lia|]. auto.
Qed.

Lemma str_take_add (j n : nat) (s : string) :
  str_take (j + n) s = str_take j s ++ str_take n (str_drop j s).
Proof.
  revert s. induction j as [|j IH]; intros [|c s]; simpl; try reflexivity.
  - destruct n; reflexivity.
  - rewrite IH. reflexivity.
Qed.

Lemma run_len_take (cls : ascii -> bool) (j : nat) (s : string) :
  (1 <= j <= run_len cls s)%nat -> nonempty_run cls (str_take j s) = true.
Proof.
  assert (A : forall i u, (i <= run_len cls u)%nat -> all_cls cls (str_take i u) = true).
  { induction i as [|i IH]; intros [|c u] Hi; simpl in Hi |- *; try reflexivity.
    destruct (cls c) eqn:E; simpl; [|lia]. apply IH. lia. }
  intros Hj. destruct j as [|j]; [lia|]. destruct s as [|c s]; simpl in Hj |- *; [lia|].
  destruct (cls c) eqn:E; [|lia]. simpl. apply A. lia.
Qed.

(** A match found by [re_match] is a word of the pattern. *)
Lemma re_match_sound (ts : list rtok) (s : string) (n : nat) :
  re_match ts s = Some n -> in_lang ts (str_take n s).
Proof.
  revert s n. induction ts as [|t ts IH]; intros s n H.
  - injection H as <-. destruct s; reflexivity.
  - destruct t as [c|cls]; cbn [re_match] in H.
    + destruct s as [|c' s']; [discriminate|].
      unfold ascii_eqb in H. destruct (ascii_dec c c') as [<-|]; [|discriminate].
      destruct (re_match ts s') as [n'|] eqn:E; [|discriminate]. injection H as <-.
      simpl. exists (str_take n' s'). split; [reflexivity | exact (IH _ _ E)].
    + destruct (try_len_some _ _ _ _ H) as (j & n' & Hj & Hr & ->).
      simpl. exists (str_take j s), (str_take n' (str_drop j s)).
      split; [apply str_take_add|]. split; [apply run_len_take; exact Hj|]. exact (IH _ _ Hr).
Qed.

Lemma re_search_sound (ts : list rtok) (s a m b : string) :
  re_search ts s = Some (a, m, b) -> in_lang ts m.
Proof.
  revert a m b. induction s as [|c s IH]; intros a m b H; simpl in H.
  - destruct (re_match ts EmptyString) as [n|] eqn:E; [|discriminate].
    injection H as _ <- _. exact (re_match_sound _ _ _ E).
  - destruct (re_match ts (String c s)) as [n|] eqn:E.
    + injection H as _ <- _. exact (re_match_sound _ _ _ E).
    + destruct (re_search ts s) as [[[a0 m0] b0]|] eqn:R; [|discriminate].
      injection H as _ <- _. exact (IH a0 m0 b0 eq_refl).
Qed.

Lemma in_lang_rlit_app (l : string) (ts : list rtok) (x : string) :
  in_lang (rlit l ++ ts) x -> exists x', x = l ++ x' /\ in_lang ts x'.
Proof.
  revert x. induction l as [|c l IH]; intros x H; simpl in H.
  - exists x. split; [reflexivity | exact H].
  - destruct H as [x1 [-> H1]]. destruct (IH x1 H1) as [x' [-> H']].
    exists x'. split; [reflexivity | exact H'].
Qed.

Lemma scanf_d_small (p : string) :
  digits_value p < 2147483648 -> scanf_d p = digits_value p.
Proof.
  intros H. assert (H0 : 0 <= digits_value p) by (apply digits_value_acc_nonneg; lia).
  unfold scanf_d, clamp_long, wrap32.
  destruct (Z.ltb_spec 9223372036854775807 (digits_value p)); [lia|].
  destruct (Z.ltb_spec (digits_value p) (-9223372036854775808)); [lia|].
  rewrite Z.mod_small by lia.
  destruct (Z.ltb_spec (digits_value p) 2147483648); lia.
Qed.

Lemma in_lang_rlit_only (l x : string) : in_lang (rlit l) x -> x = l.
Proof.
  revert x. induction l as [|c l IH]; intros x H; simpl in H; [exact H|].
  destruct H as [x' [-> H']]. rewrite (IH x' H'). reflexivity.
Qed.

Lemma head_not_blank_codec_name (codec : idilia_codec) (t : string) :
  head_not is_blank (get_codec_name codec ++ t).
Proof. intros c r E. destruct codec; inversion E; reflexivity. Qed.

Lemma head_not_blank_digits (p t : string) :
  nonempty_run is_digit p = true -> head_not is_blank (p ++ t).
Proof. apply head_not_nonempty. exact digit_not_blank. Qed.

Lemma head_not_digit_blanks (w t : string) :
  nonempty_run is_blank w = true -> head_not is_digit (w ++ t).
Proof. apply head_not_nonempty. exact blank_not_digit. Qed.

(** X19: when the [rtpmap] regex of a codec matches the SDP, the matched line
    is [a=rtpmap:<digits><blanks><codec>/] and [sdp_get_codec_pt] returns
    the [gint] that [%d] stores for that digit run: its value when it is
    below 2^31, the 32-bit wrap of [strtol]'s result otherwise. *)
Theorem sdp_get_codec_pt_reads_match (sdp : string) (codec : idilia_codec) (a m b : string) :
  re_search (re_rtpmap_for_name (get_codec_name codec)) sdp = Some (a, m, b) ->
  exists p w,
    m = "a=rtpmap:" ++ p ++ w ++ get_codec_name codec ++ "/" /\
    nonempty_run is_digit p = true /\ nonempty_run is_blank w = true /\
    sdp_get_codec_pt sdp codec = scanf_d p /\
    (digits_value p < 2147483648 -> sdp_get_codec_pt sdp codec = digits_value p).
Proof.
  intros H. generalize (re_search_sound _ _ _ _ _ H). unfold re_rtpmap_for_name. intros Hm.
  destruct (in_lang_rlit_app _ _ _ Hm) as [x [Ex Hx]]. cbn [List.app in_lang] in Hx.
  destruct Hx as (p & z & Ez & Hp & w & z' & Ez' & Hw & Hz').
  apply in_lang_rlit_only in Hz'. subst x z z'.
  assert (Hv : sdp_get_codec_pt sdp codec = scanf_d p).
  { unfold sdp_get_codec_pt. rewrite H. rewrite Ex, sscanf_lit.
    rewrite (sscanf_int true p _ _ Hp (head_not_digit_blanks _ _ Hw)).
    rewrite (sscanf_set is_blank false w _ _ Hw (head_not_blank_codec_name codec _)).
    reflexivity. }
  exists p, w. split; [exact Ex|]. split; [exact Hp|]. split; [exact Hw|].
  split; [exact Hv|]. intros Hlt. rewrite Hv. apply scanf_d_small. exact Hlt.
Qed.

Lemma sdp_get_codec_pt_reads_match_witness :
  re_search (re_rtpmap_for_name (get_codec_name IDILIA_CODEC_VP8)) sdp_rtpmap_vp8
    = Some (EmptyString, "a=rtpmap:96 VP8/", "90000") /\
  exists p w,
    "a=rtpmap:96 VP8/" = "a=rtpmap:" ++ p ++ w ++ get_codec_name IDILIA_CODEC_VP8 ++ "/" /\
    nonempty_run is_digit p = true /\ nonempty_run is_blank w = true /\
    sdp_get_codec_pt sdp_rtpmap_vp8 IDILIA_CODEC_VP8 = scanf_d p /\
    (digits_value p < 2147483648 ->
     sdp_get_codec_pt sdp_rtpmap_vp8 IDILIA_CODEC_VP8 = digits_value p).
Proof.
  split; [vm_compute; reflexivity|].
  apply (sdp_get_codec_pt_reads_match sdp_rtpmap_vp8 IDILIA_CODEC_VP8 EmptyString
    "a=rtpmap:96 VP8/" "90000").
  vm_compute; reflexivity.
Defined.

(** X20: When the [m=<type>] media-line regex matches, the matched line is
    [m=<type><blanks><port><blanks>UDP/TLS/RTP/SAVPF<blanks><digits>] and
    [sdp_get_codec_pt_for_type] returns what [%d] stores for the last digit
    run, the first payload type of the line, never the port: its value when
    it is below 2^31, the 32-bit wrap of [strtol]'s result otherwise. *)
Theorem sdp_get_codec_pt_for_type_reads_match (sdp type_ a m b : string) :
  re_search (re_media_line type_) sdp = Some (a, m, b) ->
  exists w1 port w2 w3 p,
    m = "m=" ++ type_ ++ w1 ++ port ++ w2 ++ savpf ++ w3 ++ p /\
    nonempty_run is_blank w1 = true /\ nonempty_run is_digit port = true /\
    nonempty_run is_blank w2 = true /\ nonempty_run is_blank w3 = true /\
    nonempty_run is_digit p = true /\
    sdp_get_codec_pt_for_type sdp type_ = scanf_d p /\
    (digits_value p < 2147483648 -> sdp_get_codec_pt_for_type sdp type_ = digits_value p).
Proof.
  intros H. generalize (re_search_sound _ _ _ _ _ H). unfold re_media_line. intros Hm.
  destruct (in_lang_rlit_app _ _ _ Hm) as [x [Ex Hx]]. cbn [List.app in_lang] in Hx.
  destruct Hx as (w1 & z1 & E1 & Hw1 & port & z2 & E2 & Hport & w2 & z3 & E3 & Hw2 & Hz3).
  destruct (in_lang_rlit_app _ _ _ Hz3) as [z4 [E4 Hz4]]. cbn [in_lang] in Hz4.
  destruct Hz4 as (w3 & z5 & E5 & Hw3 & p & z6 & E6 & Hp & Hz6).
  subst z6. rewrite str_app_empty_r in E6. subst x z1 z2 z3 z4 z5.
  exists w1, port, w2, w3, p.
  split; [rewrite Ex; rewrite <- !str_app_assoc; reflexivity|].
  do 5 (split; [assumption|]).
  enough (Hv : sdp_get_codec_pt_for_type sdp type_ = scanf_d p).
  { split; [exact Hv|]. intros Hlt. rewrite Hv. apply scanf_d_small. exact Hlt. }
  unfold sdp_get_codec_pt_for_type. rewrite H, Ex, sscanf_lit.
  rewrite (sscanf_set is_blank false w1 _ _ Hw1 (head_not_blank_digits _ _ Hport)).
  rewrite (sscanf_int false port _ _ Hport (head_not_digit_blanks _ _ Hw2)).
  rewrite (sscanf_set is_blank false w2 _ _ Hw2 (head_not_savpf _)).
  cbn [List.app]. rewrite sscanf_lit.
  rewrite <- (str_app_empty_r p).
  rewrite (sscanf_set is_blank false w3 _ _ Hw3 (head_not_blank_digits _ _ Hp)).
  rewrite (sscanf_int true p _ _ Hp (head_not_empty _)).
  cbn [List.app sscanf]. rewrite str_app_empty_r. reflexivity.
Qed.

Lemma sdp_get_codec_pt_for_type_reads_match_witness :
  re_search (re_media_line "video") sdp_media_video
    = Some (EmptyString, "m=video 9 UDP/TLS/RTP/SAVPF 96", " 97") /\
  exists w1 port w2 w3 p,
    "m=video 9 UDP/TLS/RTP/SAVPF 96" = "m=" ++ "video" ++ w1 ++ port ++ w2 ++ savpf ++ w3 ++ p /\
    nonempty_run is_blank w1 = true /\ nonempty_run is_digit port = true /\
    nonempty_run is_blank w2 = true /\ nonempty_run is_blank w3 = true /\
    nonempty_run is_digit p = true /\
    sdp_get_codec_pt_for_type sdp_media_video "video" = scanf_d p /\
    (digits_value p < 2147483648 ->
     sdp_get_codec_pt_for_type sdp_media_video "video" = digits_value p).
Proof.
  split; [vm_compute; reflexivity|].
  apply (sdp_get_codec_pt_for_type_reads_match sdp_media_video "video" EmptyString
    "m=video 9 UDP/TLS/RTP/SAVPF 96" " 97").
  vm_compute; reflexivity.
Defined.
